(** * The client runtime of the taxi application (frontend/src/App.js)

    A shallow embedding of the [App] component: its React state, the
    browser objects it touches (localStorage, the axios default headers,
    timers), every handler of the component split at its [await], and the
    effect hooks that re-run when [user] or [currentLocation] change.

    Conventions.
    - A handler is a function [World -> World * list Action]: the new
      state and what it sent out (HTTP requests, the geolocation request,
      console output), oldest first.
    - An [async] function is split at its [await]: the part before it
      sends the request, the part after it is a second function that takes
      the outcome of the request.
    - A closure that a timer keeps is stored with the timer: the values of
      [user] and [currentLocation] of the render that created it.
    - Coordinates are carried around, never computed with; they are
      rationals here, so [24.7136] is the literal of the source.
    - The login and registration forms ([loginForm], [passengerForm],
      [driverForm]) and the tab state only feed request bodies and the
      rendering, and are left out of the state; the checks of the browser
      on the driver form take the values of the form as an argument. *)

From Stdlib Require Import QArith ZArith NArith Ascii String List Lia.
From stdpp Require Import gmap strings list.
Import ListNotations.

Open Scope string_scope.

(** ** Values of the data model *)

(** [currentLocation]: [{ lat, lng }]. *)
Record GeoPosition := { lat : Q; lng : Q }.

(** The profile the backend returns in [/me], [/login] and the
    registrations.  Only [user_type] and [is_activated] decide anything in
    the component; [is_activated] is the truthiness of the field (a
    passenger profile that lacks it reads as [false]). *)
Record UserProfile := {
  name : string;
  phone : string;
  user_type : string;
  is_activated : bool;
  activation_expires : option string
}.

(** One entry of [nearbyTaxis]. *)
Record NearbyTaxi := {
  taxi_id : string;
  driver_name : string;
  latitude : Q;
  longitude : Q
}.

(** [alert]: [{ show, type, message }]. *)
Record Alert := { show : bool; type : string; message : string }.

(** [customerServiceInfo]: [{ phone, message }]. *)
Record CustomerServiceInfo := { cs_phone : string; cs_message : string }.

(** A JavaScript value as [rideRequest.passenger_count] holds it: the
    number [1] of the initial state and of the reset, or the [value]
    string of the chosen [<option>]. *)
Inductive JsVal :=
| JNum (n : Z)
| JStr (s : string).

(** [rideRequest]: the ride form. *)
Record RideRequest := {
  pickup_address : string;
  destination_address : string;
  passenger_count : JsVal;
  has_luggage : bool
}.

(** The body of [POST /rides/request]; [None] in [passenger_count] is
    [NaN]. *)
Module Payload.
Record t := {
  pickup_latitude : Q;
  pickup_longitude : Q;
  pickup_address : string;
  destination_address : string;
  passenger_count : option Z;
  has_luggage : bool
}.
End Payload.

(** What a rejected axios promise carries: [error.response?.status] and
    [error.response?.data?.detail], each absent when there is no response. *)
Record AxiosError := { status : option Z; detail : option string }.

(** ** [parseInt] *)

(** The white space [parseInt] skips, for the one-byte characters: space,
    tab, line feed, vertical tab, form feed, carriage return. *)
Definition isWhiteSpace (c : ascii) : bool :=
  let n := N_of_ascii c in
  (n =? 32)%N || ((9 <=? n)%N && (n <=? 13)%N).

Fixpoint trimStart (s : string) : string :=
  match s with
  | String c r => if isWhiteSpace c then trimStart r else s
  | EmptyString => EmptyString
  end.

Definition digitValue (c : ascii) : option Z :=
  let n := Z.of_N (N_of_ascii c) in
  if (48 <=? n)%Z && (n <=? 57)%Z then Some (n - 48)%Z
  else if (97 <=? n)%Z && (n <=? 122)%Z then Some (n - 87)%Z
  else if (65 <=? n)%Z && (n <=? 90)%Z then Some (n - 55)%Z
  else None.

(** The longest prefix of digits of the radix, as a number; [acc] is
    [None] until a digit has been read. *)
Fixpoint readDigits (radix : Z) (s : string) (acc : option Z) : option Z :=
  match s with
  | String c r =>
      match digitValue c with
      | Some d =>
          if (d <? radix)%Z
          then readDigits radix r (Some (default 0%Z acc * radix + d)%Z)
          else acc
      | None => acc
      end
  | EmptyString => acc
  end.

(** [parseInt(string)] with no radix argument: trim, sign, an optional
    [0x] prefix, digits; [None] is [NaN]. *)
Definition parseInt_string (s : string) : option Z :=
  let s := trimStart s in
  let '(sign, s) :=
    match s with
    | String "-"%char r => ((-1)%Z, r)
    | String "+"%char r => (1%Z, r)
    | _ => (1%Z, s)
    end in
  let '(radix, s) :=
    match s with
    | String "0"%char (String "x"%char r) => (16%Z, r)
    | String "0"%char (String "X"%char r) => (16%Z, r)
    | _ => (10%Z, s)
    end in
  Z.mul sign <$> readDigits radix s None.

(** [parseInt] of a value: a number is first turned into its decimal
    digits, which read back as the same integer (for the integers below
    1e21, whose string has no exponent). *)
Definition parseInt (v : JsVal) : option Z :=
  match v with
  | JNum n => Some n
  | JStr s => parseInt_string s
  end.

(** ** What the component sends out *)

Inductive Request :=
| GetMe
| GetCustomerServiceInfo
| GetTaxisNearby (lat lng : Q)
| PostLogin
| PostRegisterPassenger
| PostRegisterDriver
| PostDriverLocation (latitude longitude : Q)
| PostRidesRequest (body : Payload.t).

Inductive Action :=
| Http (r : Request)
| GetCurrentPosition
| ConsoleError (label : string).

(** ** The state *)

(** The closure an interval keeps: [user] and [currentLocation] as the
    render that installed the interval saw them. *)
Record Closure := {
  c_user : option UserProfile;
  c_location : option GeoPosition
}.

Record World := {
  (* React state, lines 47 to 79 *)
  user : option UserProfile;
  currentLocation : option GeoPosition;
  nearbyTaxis : list NearbyTaxi;
  isLoading : bool;
  alert : Alert;
  customerServiceInfo : CustomerServiceInfo;
  rideRequest : RideRequest;
  (* the browser *)
  localStorage : gmap string string;
  headers : gmap string string;      (* axios.defaults.headers.common *)
  now : N;                            (* milliseconds *)
  timeouts : list (N * N);            (* pending setTimeout: id, deadline *)
  nextTimerId : N;
  taxiInterval : option Closure;      (* the interval of lines 117 to 123 *)
  reporterInterval : option Closure   (* the interval of lines 274 to 280 *)
}.

(** ** Field updates

    The setters of [useState] keep their names; the others update the
    browser part of the state. *)

Definition setUser (v : option UserProfile) (w : World) : World :=
  {| user := v; currentLocation := currentLocation w;
     nearbyTaxis := nearbyTaxis w; isLoading := isLoading w;
     alert := alert w; customerServiceInfo := customerServiceInfo w;
     rideRequest := rideRequest w; localStorage := localStorage w;
     headers := headers w; now := now w; timeouts := timeouts w;
     nextTimerId := nextTimerId w; taxiInterval := taxiInterval w;
     reporterInterval := reporterInterval w |}.

Definition setCurrentLocation (v : option GeoPosition) (w : World) : World :=
  {| user := user w; currentLocation := v; nearbyTaxis := nearbyTaxis w;
     isLoading := isLoading w; alert := alert w;
     customerServiceInfo := customerServiceInfo w;
     rideRequest := rideRequest w; localStorage := localStorage w;
     headers := headers w; now := now w; timeouts := timeouts w;
     nextTimerId := nextTimerId w; taxiInterval := taxiInterval w;
     reporterInterval := reporterInterval w |}.

Definition setNearbyTaxis (v : list NearbyTaxi) (w : World) : World :=
  {| user := user w; currentLocation := currentLocation w; nearbyTaxis := v;
     isLoading := isLoading w; alert := alert w;
     customerServiceInfo := customerServiceInfo w;
     rideRequest := rideRequest w; localStorage := localStorage w;
     headers := headers w; now := now w; timeouts := timeouts w;
     nextTimerId := nextTimerId w; taxiInterval := taxiInterval w;
     reporterInterval := reporterInterval w |}.

Definition setIsLoading (v : bool) (w : World) : World :=
  {| user := user w; currentLocation := currentLocation w;
     nearbyTaxis := nearbyTaxis w; isLoading := v; alert := alert w;
     customerServiceInfo := customerServiceInfo w;
     rideRequest := rideRequest w; localStorage := localStorage w;
     headers := headers w; now := now w; timeouts := timeouts w;
     nextTimerId := nextTimerId w; taxiInterval := taxiInterval w;
     reporterInterval := reporterInterval w |}.

Definition setAlert (v : Alert) (w : World) : World :=
  {| user := user w; currentLocation := currentLocation w;
     nearbyTaxis := nearbyTaxis w; isLoading := isLoading w; alert := v;
     customerServiceInfo := customerServiceInfo w;
     rideRequest := rideRequest w; localStorage := localStorage w;
     headers := headers w; now := now w; timeouts := timeouts w;
     nextTimerId := nextTimerId w; taxiInterval := taxiInterval w;
     reporterInterval := reporterInterval w |}.

Definition setCustomerServiceInfo (v : CustomerServiceInfo) (w : World) : World :=
  {| user := user w; currentLocation := currentLocation w;
     nearbyTaxis := nearbyTaxis w; isLoading := isLoading w;
     alert := alert w; customerServiceInfo := v;
     rideRequest := rideRequest w; localStorage := localStorage w;
     headers := headers w; now := now w; timeouts := timeouts w;
     nextTimerId := nextTimerId w; taxiInterval := taxiInterval w;
     reporterInterval := reporterInterval w |}.

Definition setRideRequest (v : RideRequest) (w : World) : World :=
  {| user := user w; currentLocation := currentLocation w;
     nearbyTaxis := nearbyTaxis w; isLoading := isLoading w;
     alert := alert w; customerServiceInfo := customerServiceInfo w;
     rideRequest := v; localStorage := localStorage w; headers := headers w;
     now := now w; timeouts := timeouts w; nextTimerId := nextTimerId w;
     taxiInterval := taxiInterval w;
     reporterInterval := reporterInterval w |}.

Definition set_localStorage (v : gmap string string) (w : World) : World :=
  {| user := user w; currentLocation := currentLocation w;
     nearbyTaxis := nearbyTaxis w; isLoading := isLoading w;
     alert := alert w; customerServiceInfo := customerServiceInfo w;
     rideRequest := rideRequest w; localStorage := v; headers := headers w;
     now := now w; timeouts := timeouts w; nextTimerId := nextTimerId w;
     taxiInterval := taxiInterval w;
     reporterInterval := reporterInterval w |}.

Definition set_headers (v : gmap string string) (w : World) : World :=
  {| user := user w; currentLocation := currentLocation w;
     nearbyTaxis := nearbyTaxis w; isLoading := isLoading w;
     alert := alert w; customerServiceInfo := customerServiceInfo w;
     rideRequest := rideRequest w; localStorage := localStorage w;
     headers := v; now := now w; timeouts := timeouts w;
     nextTimerId := nextTimerId w; taxiInterval := taxiInterval w;
     reporterInterval := reporterInterval w |}.

Definition set_now (v : N) (w : World) : World :=
  {| user := user w; currentLocation := currentLocation w;
     nearbyTaxis := nearbyTaxis w; isLoading := isLoading w;
     alert := alert w; customerServiceInfo := customerServiceInfo w;
     rideRequest := rideRequest w; localStorage := localStorage w;
     headers := headers w; now := v; timeouts := timeouts w;
     nextTimerId := nextTimerId w; taxiInterval := taxiInterval w;
     reporterInterval := reporterInterval w |}.

Definition set_timeouts (v : list (N * N)) (w : World) : World :=
  {| user := user w; currentLocation := currentLocation w;
     nearbyTaxis := nearbyTaxis w; isLoading := isLoading w;
     alert := alert w; customerServiceInfo := customerServiceInfo w;
     rideRequest := rideRequest w; localStorage := localStorage w;
     headers := headers w; now := now w; timeouts := v;
     nextTimerId := nextTimerId w; taxiInterval := taxiInterval w;
     reporterInterval := reporterInterval w |}.

Definition set_nextTimerId (v : N) (w : World) : World :=
  {| user := user w; currentLocation := currentLocation w;
     nearbyTaxis := nearbyTaxis w; isLoading := isLoading w;
     alert := alert w; customerServiceInfo := customerServiceInfo w;
     rideRequest := rideRequest w; localStorage := localStorage w;
     headers := headers w; now := now w; timeouts := timeouts w;
     nextTimerId := v; taxiInterval := taxiInterval w;
     reporterInterval := reporterInterval w |}.

Definition set_taxiInterval (v : option Closure) (w : World) : World :=
  {| user := user w; currentLocation := currentLocation w;
     nearbyTaxis := nearbyTaxis w; isLoading := isLoading w;
     alert := alert w; customerServiceInfo := customerServiceInfo w;
     rideRequest := rideRequest w; localStorage := localStorage w;
     headers := headers w; now := now w; timeouts := timeouts w;
     nextTimerId := nextTimerId w; taxiInterval := v;
     reporterInterval := reporterInterval w |}.

Definition set_reporterInterval (v : option Closure) (w : World) : World :=
  {| user := user w; currentLocation := currentLocation w;
     nearbyTaxis := nearbyTaxis w; isLoading := isLoading w;
     alert := alert w; customerServiceInfo := customerServiceInfo w;
     rideRequest := rideRequest w; localStorage := localStorage w;
     headers := headers w; now := now w; timeouts := timeouts w;
     nextTimerId := nextTimerId w; taxiInterval := taxiInterval w;
     reporterInterval := v |}.

(** ** Handlers as state transformers that log what they send *)

Definition Handler : Type := World -> World * list Action.

Definition skip : Handler := fun w => (w, []).

Definition modify (f : World -> World) : Handler := fun w => (f w, []).

Definition emit (a : Action) : Handler := fun w => (w, [a]).

Definition andThen (h1 h2 : Handler) : Handler :=
  fun w =>
    let r1 := h1 w in
    let r2 := h2 (fst r1) in
    (fst r2, (snd r1 ++ snd r2)%list).

Declare Scope handler_scope.
Delimit Scope handler_scope with handler.
Bind Scope handler_scope with Handler.
Notation "h1 ;; h2" := (andThen h1 h2)
  (at level 100, h2 at level 200, right associativity) : handler_scope.
Open Scope handler_scope.

(** The outcome of an awaited request. *)
Inductive Outcome (A : Type) :=
| Resolved (data : A)
| Rejected (error : AxiosError).
Arguments Resolved {A} data.
Arguments Rejected {A} error.

(** [response.data] of the login and of the two registrations. *)
Record AuthData := {
  access_token : string;
  auth_user : UserProfile;
  auth_message : string
}.

(** *** The browser objects *)

Definition localStorage_setItem (k v : string) (w : World) : World :=
  set_localStorage (<[k := v]> (localStorage w)) w.

Definition localStorage_removeItem (k : string) (w : World) : World :=
  set_localStorage (delete k (localStorage w)) w.

Definition headers_set (k v : string) (w : World) : World :=
  set_headers (<[k := v]> (headers w)) w.

Definition headers_delete (k : string) (w : World) : World :=
  set_headers (delete k (headers w)) w.

(** [setTimeout(callback, delay)]: a new pending timer, due [delay]
    milliseconds from now.  Every timer of the component has the callback
    of line 127, so the timer stores no callback. *)
Definition setTimeout (delay : N) (w : World) : World :=
  set_nextTimerId (nextTimerId w + 1)%N
    (set_timeouts (timeouts w ++ [(nextTimerId w, (now w + delay)%N)])%list w).

(** *** Lines 125 to 128 *)

Definition alertHidden : Alert := {| show := false; type := ""; message := "" |}.

Definition showAlert (type message : string) : Handler :=
  modify (setAlert {| show := true; type := type; message := message |}) ;;
  modify (setTimeout 5000).

(** The callback of the timer of line 127. *)
Definition dismissAlert : Handler := modify (setAlert alertHidden).

(** *** Lines 82 to 100: the position of the device *)

Definition defaultLocation : GeoPosition := {| lat := 24.7136; lng := 46.6753 |}.

(** The effect itself; [hasGeolocation] is the truthiness of
    [navigator.geolocation]. *)
Definition effect_geolocation (hasGeolocation : bool) : Handler :=
  if hasGeolocation then emit GetCurrentPosition
  else modify (setCurrentLocation (Some defaultLocation)).

(** The two callbacks handed to [getCurrentPosition]. *)
Definition geolocation_success (position : GeoPosition) : Handler :=
  modify (setCurrentLocation (Some position)).

Definition geolocation_error : Handler :=
  emit (ConsoleError "Error getting location:") ;;
  modify (setCurrentLocation (Some defaultLocation)).

(** *** Lines 130 to 138 *)

Definition fetchUserProfile : Handler := emit (Http GetMe).

Definition fetchUserProfile_then (r : Outcome UserProfile) : Handler :=
  match r with
  | Resolved data => modify (setUser (Some data))
  | Rejected _ =>
      modify (localStorage_removeItem "token") ;;
      modify (headers_delete "Authorization")
  end.

(** *** Lines 103 to 109: restore at startup *)

Definition effect_restore : Handler :=
  fun w =>
    match localStorage w !! "token" with
    | Some token =>
        if String.eqb token "" then skip w
        else (modify (headers_set "Authorization" ("Bearer " ++ token)) ;;
              fetchUserProfile) w
    | None => skip w
    end.

(** *** Lines 140 to 147 *)

Definition fetchCustomerServiceInfo : Handler :=
  emit (Http GetCustomerServiceInfo).

Definition fetchCustomerServiceInfo_then
    (r : Outcome CustomerServiceInfo) : Handler :=
  match r with
  | Resolved data => modify (setCustomerServiceInfo data)
  | Rejected _ => emit (ConsoleError "Error fetching customer service info:")
  end.

(** *** Lines 149 to 160 *)

Definition fetchNearbyTaxis (cl : Closure) : Handler :=
  match c_location cl with
  | None => skip
  | Some loc => emit (Http (GetTaxisNearby (lat loc) (lng loc)))
  end.

Definition fetchNearbyTaxis_then (r : Outcome (list NearbyTaxi)) : Handler :=
  match r with
  | Resolved data => modify (setNearbyTaxis data)
  | Rejected _ => emit (ConsoleError "Error fetching nearby taxis:")
  end.

(** *** Lines 162 to 219: login and the two registrations *)

Definition storeSession (d : AuthData) : Handler :=
  modify (localStorage_setItem "token" (access_token d)) ;;
  modify (headers_set "Authorization" ("Bearer " ++ access_token d)) ;;
  modify (setUser (Some (auth_user d))).

Definition handleLogin : Handler :=
  modify (setIsLoading true) ;; emit (Http PostLogin).

Definition handleLogin_then (r : Outcome AuthData) : Handler :=
  match r with
  | Resolved d => storeSession d ;; showAlert "success" "تم تسجيل الدخول بنجاح"
  | Rejected _ =>
      showAlert "error"
        "خطأ في تسجيل الدخول. يرجى التحقق من رقم الهاتف وكلمة المرور."
  end ;;
  modify (setIsLoading false).

(** [error.response?.data?.detail || 'خطأ في التسجيل.'] *)
Definition registrationMessage (error : AxiosError) : string :=
  match detail error with
  | Some d => if String.eqb d "" then "خطأ في التسجيل." else d
  | None => "خطأ في التسجيل."
  end.

Definition handleRegister_then (r : Outcome AuthData) : Handler :=
  match r with
  | Resolved d => storeSession d ;; showAlert "success" (auth_message d)
  | Rejected error => showAlert "error" (registrationMessage error)
  end ;;
  modify (setIsLoading false).

Definition handlePassengerRegister : Handler :=
  modify (setIsLoading true) ;; emit (Http PostRegisterPassenger).

Definition handlePassengerRegister_then := handleRegister_then.

Definition handleDriverRegister : Handler :=
  modify (setIsLoading true) ;; emit (Http PostRegisterDriver).

Definition handleDriverRegister_then := handleRegister_then.

(** *** Lines 221 to 235: the report of a driver's position *)

Definition handleLocationUpdate (cl : Closure) : Handler :=
  match c_user cl, c_location cl with
  | Some u, Some loc =>
      if negb (String.eqb (user_type u) "driver") || negb (is_activated u)
      then skip
      else emit (Http (PostDriverLocation (lat loc) (lng loc)))
  | _, _ => skip
  end.

Definition handleLocationUpdate_then (r : Outcome unit) : Handler :=
  match r with
  | Resolved _ => skip
  | Rejected error =>
      emit (ConsoleError "Error updating location:") ;;
      if bool_decide (status error = Some 403%Z)
      then showAlert "error" "انتهت صلاحية التفعيل. يرجى تجديد الاشتراك."
      else skip
  end.

(** *** Lines 237 to 258: the ride request *)

(** [a || b] on strings: the empty string is the only falsy one. *)
Definition jsOr (a b : string) : string :=
  if String.eqb a "" then b else a.

Definition currentLocationSentinel : string := "الموقع الحالي".

Definition ridePayload (loc : GeoPosition) (form : RideRequest) : Payload.t :=
  {| Payload.pickup_latitude := lat loc;
     Payload.pickup_longitude := lng loc;
     Payload.pickup_address :=
       jsOr (pickup_address form) currentLocationSentinel;
     Payload.destination_address := destination_address form;
     Payload.passenger_count := parseInt (passenger_count form);
     Payload.has_luggage := has_luggage form |}.

Definition emptyRideRequest : RideRequest :=
  {| pickup_address := ""; destination_address := "";
     passenger_count := JNum 1; has_luggage := false |}.

Definition handleRideRequest : Handler :=
  fun w =>
    match currentLocation w with
    | None => skip w
    | Some loc =>
        (modify (setIsLoading true) ;;
         emit (Http (PostRidesRequest (ridePayload loc (rideRequest w))))) w
    end.

Definition handleRideRequest_then (r : Outcome unit) : Handler :=
  match r with
  | Resolved _ =>
      showAlert "success" "تم إرسال طلب التاكسي بنجاح!" ;;
      modify (setRideRequest emptyRideRequest)
  | Rejected _ =>
      showAlert "error" "خطأ في إرسال الطلب. يرجى المحاولة مرة أخرى."
  end ;;
  modify (setIsLoading false).

(** *** Lines 603 to 653: the ride form

    The handler above is the [onSubmit] of a form.  The destination input
    is [required], so the browser does not dispatch [submit] while its
    value is empty; the passenger count is a [<select>] whose change event
    carries the [value] of one of its four options. *)

Definition passengerOptions : list string := ["1"; "2"; "3"; "4"].

Definition luggageOptions : list string := ["false"; "true"].

Definition onChange_pickup (v : string) : Handler :=
  fun w =>
    let f := rideRequest w in
    modify (setRideRequest
      {| pickup_address := v; destination_address := destination_address f;
         passenger_count := passenger_count f; has_luggage := has_luggage f |}) w.

Definition onChange_destination (v : string) : Handler :=
  fun w =>
    let f := rideRequest w in
    modify (setRideRequest
      {| pickup_address := pickup_address f; destination_address := v;
         passenger_count := passenger_count f; has_luggage := has_luggage f |}) w.

Definition onChange_passengerCount (v : string) : Handler :=
  fun w =>
    let f := rideRequest w in
    modify (setRideRequest
      {| pickup_address := pickup_address f;
         destination_address := destination_address f;
         passenger_count := JStr v; has_luggage := has_luggage f |}) w.

Definition onChange_luggage (v : string) : Handler :=
  fun w =>
    let f := rideRequest w in
    modify (setRideRequest
      {| pickup_address := pickup_address f;
         destination_address := destination_address f;
         passenger_count := passenger_count f;
         has_luggage := String.eqb v "true" |}) w.

(** Pressing the submit button: the [required] check of the browser, then
    the handler. *)
Definition rideForm_submit : Handler :=
  fun w =>
    if String.eqb (destination_address (rideRequest w)) "" then skip w
    else handleRideRequest w.

(** *** Lines 260 to 265 *)

Definition handleLogout : Handler :=
  modify (localStorage_removeItem "token") ;;
  modify (headers_delete "Authorization") ;;
  modify (setUser None) ;;
  modify (setNearbyTaxis []).

(** ** The two effects that depend on [user] and [currentLocation] *)

Definition closureOf (w : World) : Closure :=
  {| c_user := user w; c_location := currentLocation w |}.

(** Lines 117 to 123.  The cleanup is the function the previous run
    returned: [clearInterval]. *)
Definition cleanup_nearbyTaxis : Handler := modify (set_taxiInterval None).

Definition effect_nearbyTaxis : Handler :=
  fun w =>
    match user w, currentLocation w with
    | Some _, Some _ =>
        (fetchNearbyTaxis (closureOf w) ;;
         modify (set_taxiInterval (Some (closureOf w)))) w
    | _, _ => skip w
    end.

(** Lines 274 to 280. *)
Definition cleanup_locationReporter : Handler :=
  modify (set_reporterInterval None).

Definition effect_locationReporter : Handler :=
  fun w =>
    match user w, currentLocation w with
    | Some u, Some _ =>
        if String.eqb (user_type u) "driver" && is_activated u
        then (handleLocationUpdate (closureOf w) ;;
              modify (set_reporterInterval (Some (closureOf w)))) w
        else skip w
    | _, _ => skip w
    end.

(** What React does after a render in which [user] or [currentLocation]
    is a new value: the cleanups of the previous run, then both effects, in
    the order of the source. *)
Definition runEffects : Handler :=
  cleanup_nearbyTaxis ;; cleanup_locationReporter ;;
  effect_nearbyTaxis ;; effect_locationReporter.

(** ** The component as a transition system *)

(** The state of the first render, lines 47 to 79, in a browser whose
    storage is [storage]. *)
Definition initialWorld (storage : gmap string string) : World :=
  {| user := None; currentLocation := None; nearbyTaxis := [];
     isLoading := false; alert := alertHidden;
     customerServiceInfo := {| cs_phone := ""; cs_message := "" |};
     rideRequest := emptyRideRequest;
     localStorage := storage; headers := ∅;
     now := 0%N; timeouts := []; nextTimerId := 1%N;
     taxiInterval := None; reporterInterval := None |}.

(** The effects of the first render, in the order of the source: lines
    82, 103, 112, then the two effects of [user] and [currentLocation]
    (which also covers their re-run when line 98 has set the position). *)
Definition mount (hasGeolocation : bool) : Handler :=
  effect_geolocation hasGeolocation ;;
  effect_restore ;;
  fetchCustomerServiceInfo ;;
  runEffects.

Definition startup (hasGeolocation : bool) (storage : gmap string string)
    : World * list Action :=
  mount hasGeolocation (initialWorld storage).

(** What can happen to the mounted component: a callback of the browser,
    the outcome of a request, an input of the user, a timer. *)
Inductive Event :=
| PositionFound (position : GeoPosition)
| PositionFailed
| ProfileAnswered (r : Outcome UserProfile)
| CustomerServiceAnswered (r : Outcome CustomerServiceInfo)
| NearbyAnswered (r : Outcome (list NearbyTaxi))
| SubmitLogin
| LoginAnswered (r : Outcome AuthData)
| SubmitPassengerRegister
| PassengerRegisterAnswered (r : Outcome AuthData)
| SubmitDriverRegister
| DriverRegisterAnswered (r : Outcome AuthData)
| LocationAnswered (r : Outcome unit)
| TypePickup (v : string)
| TypeDestination (v : string)
| ChoosePassengerCount (i : nat)
| ChooseLuggage (i : nat)
| SubmitRide
| RideAnswered (r : Outcome unit)
| ClickLogout
| TaxiTick
| ReporterTick
| Elapse (dt : N)
| TimeoutFires (id : N).

(** The login screen is what line 282 renders while [user] is null. *)
Definition whenAnonymous (h : Handler) : Handler :=
  fun w => match user w with None => h w | Some _ => skip w end.

(** The header with the logout button (line 536) is rendered once [user]
    is set. *)
Definition whenSignedIn (h : Handler) : Handler :=
  fun w => match user w with Some _ => h w | None => skip w end.

(** The ride form is what line 595 renders for a passenger. *)
Definition whenPassenger (h : Handler) : Handler :=
  fun w =>
    match user w with
    | Some u => if String.eqb (user_type u) "passenger" then h w else skip w
    | None => skip w
    end.

(** A [<select>] reports the value of one of its options. *)
Definition chosen (options : list string) (i : nat) (h : string -> Handler)
    : Handler :=
  match options !! i with
  | Some v => h v
  | None => skip
  end.

Definition timerDue (id : N) (w : World) : bool :=
  existsb (fun t => (fst t =? id)%N && (snd t <=? now w)%N) (timeouts w).

(** A pending timer whose delay has passed runs its callback, once. *)
Definition fireTimeout (id : N) : Handler :=
  fun w =>
    if timerDue id w
    then (modify (set_timeouts
                    (List.filter (fun t => negb (fst t =? id)%N) (timeouts w))) ;;
          dismissAlert) w
    else skip w.

(** An installed interval calls the function it was given, with the
    closure of the render that installed it.  When it does is left open:
    a tick may come at any moment while the interval is installed. *)
Definition tick (interval : World -> option Closure)
    (callback : Closure -> Handler) : Handler :=
  fun w =>
    match interval w with
    | Some cl => callback cl w
    | None => skip w
    end.

(** One event.  Every object that a response delivers or a literal builds
    is a new reference, so each call of [setUser] or [setCurrentLocation]
    below changes the dependencies of the two effects and they re-run, in
    the same step: React commits the render and runs the effects before
    the next event is handled.  An answer is taken whenever it arrives. *)
Definition step (w : World) (e : Event) : World * list Action :=
  match e with
  | PositionFound position => (geolocation_success position ;; runEffects) w
  | PositionFailed => (geolocation_error ;; runEffects) w
  | ProfileAnswered (Resolved d) =>
      (fetchUserProfile_then (Resolved d) ;; runEffects) w
  | ProfileAnswered (Rejected err) => fetchUserProfile_then (Rejected err) w
  | CustomerServiceAnswered r => fetchCustomerServiceInfo_then r w
  | NearbyAnswered r => fetchNearbyTaxis_then r w
  | SubmitLogin => whenAnonymous handleLogin w
  | LoginAnswered (Resolved d) =>
      (handleLogin_then (Resolved d) ;; runEffects) w
  | LoginAnswered (Rejected err) => handleLogin_then (Rejected err) w
  | SubmitPassengerRegister => whenAnonymous handlePassengerRegister w
  | PassengerRegisterAnswered (Resolved d) =>
      (handlePassengerRegister_then (Resolved d) ;; runEffects) w
  | PassengerRegisterAnswered (Rejected err) =>
      handlePassengerRegister_then (Rejected err) w
  | SubmitDriverRegister => whenAnonymous handleDriverRegister w
  | DriverRegisterAnswered (Resolved d) =>
      (handleDriverRegister_then (Resolved d) ;; runEffects) w
  | DriverRegisterAnswered (Rejected err) =>
      handleDriverRegister_then (Rejected err) w
  | LocationAnswered r => handleLocationUpdate_then r w
  | TypePickup v => whenPassenger (onChange_pickup v) w
  | TypeDestination v => whenPassenger (onChange_destination v) w
  | ChoosePassengerCount i =>
      whenPassenger (chosen passengerOptions i onChange_passengerCount) w
  | ChooseLuggage i =>
      whenPassenger (chosen luggageOptions i onChange_luggage) w
  | SubmitRide => whenPassenger rideForm_submit w
  | RideAnswered r => handleRideRequest_then r w
  | ClickLogout => whenSignedIn (handleLogout ;; runEffects) w
  | TaxiTick => tick taxiInterval fetchNearbyTaxis w
  | ReporterTick => tick reporterInterval handleLocationUpdate w
  | Elapse dt => modify (fun w => set_now (now w + dt)%N w) w
  | TimeoutFires id => fireTimeout id w
  end.

(** A run: the state after the events and everything sent meanwhile. *)
Fixpoint run (w : World) (es : list Event) : World * list Action :=
  match es with
  | [] => (w, [])
  | e :: es =>
      let r1 := step w e in
      let r2 := run (fst r1) es in
      (fst r2, (snd r1 ++ snd r2)%list)
  end.

Inductive reachable : World -> Prop :=
| reachable_startup hasGeolocation storage :
    reachable (fst (startup hasGeolocation storage))
| reachable_step w e :
    reachable w -> reachable (fst (step w e)).

(** ** Predicates of the claims *)

(** The condition of line 275 (and, negated, of line 222). *)
Definition reporterActive (u : option UserProfile)
    (loc : option GeoPosition) : bool :=
  match u, loc with
  | Some u, Some _ => String.eqb (user_type u) "driver" && is_activated u
  | _, _ => false
  end.

Definition isLocationReport (a : Action) : bool :=
  match a with
  | Http (PostDriverLocation _ _) => true
  | _ => false
  end.

Definition isPositionRequest (a : Action) : bool :=
  match a with
  | GetCurrentPosition => true
  | _ => false
  end.

(** The mode the render derives from the profile: line 282 for no user,
    line 595 for the controls, lines 530 to 534 for the activation badge. *)
Inductive RoleState :=
| anonymous
| passenger_active
| driver_pending_activation
| driver_active.

Definition roleState (w : World) : RoleState :=
  match user w with
  | None => anonymous
  | Some u =>
      if String.eqb (user_type u) "driver"
      then if is_activated u then driver_active else driver_pending_activation
      else passenger_active
  end.

(** The interval of the reporter is installed exactly when the condition
    of line 275 holds now, and its closure is the current one. *)
Definition reporterInv (w : World) : Prop :=
  reporterInterval w =
    if reporterActive (user w) (currentLocation w)
    then Some (closureOf w) else None.

Definition noReport (out : list Action) : Prop :=
  existsb isLocationReport out = false.

(** A handler that neither touches what the reporter depends on nor sends
    a report. *)
Definition quiet (h : Handler) : Prop :=
  forall w,
    user (fst (h w)) = user w /\
    currentLocation (fst (h w)) = currentLocation w /\
    reporterInterval (fst (h w)) = reporterInterval w /\
    noReport (snd (h w)).

(** What the reporter depends on has the given values. *)
Definition reporterView (u : option UserProfile) (l : option GeoPosition)
    (r : option Closure) (w : World) : Prop :=
  user w = u /\ currentLocation w = l /\ reporterInterval w = r.

(** The session as the spec names it: no profile and no credential, in
    the storage or on outgoing requests. *)
Definition sessionAnonymous (w : World) : Prop :=
  user w = None /\
  localStorage w !! "token" = None /\
  headers w !! "Authorization" = None.

(** What the ride form can hold in [passenger_count]: the [1] of the
    initial state and of the reset, or the value of an option. *)
Definition passengerCountOfForm (v : JsVal) : Prop :=
  v = JNum 1 \/ exists s, In s passengerOptions /\ v = JStr s.

(** The answers that store a profile: the restore, a login or a
    registration that succeeded. *)
Definition storesProfile (e : Event) : bool :=
  match e with
  | ProfileAnswered (Resolved _)
  | LoginAnswered (Resolved _)
  | PassengerRegisterAnswered (Resolved _)
  | DriverRegisterAnswered (Resolved _) => true
  | _ => false
  end.

Definition userAbsent (w : World) : Prop := user w = None.

Definition isCustomerServiceData (e : Event) : bool :=
  match e with
  | CustomerServiceAnswered (Resolved _) => true
  | _ => false
  end.

(** The component has arrived in a state, having sent [out] on the way in:
    by mounting, or by one event from a reachable state. *)
Inductive arrives : World -> list Action -> Prop :=
| arrives_startup hasGeolocation storage :
    arrives (fst (startup hasGeolocation storage))
            (snd (startup hasGeolocation storage))
| arrives_step w e :
    reachable w -> arrives (fst (step w e)) (snd (step w e)).

(** ** Two properties of handlers that compose

    [preserves I h]: [h] keeps the state inside [I].
    [never p h]: [h] sends nothing that [p] recognises. *)

Definition preserves (I : World -> Prop) (h : Handler) : Prop :=
  forall w, I w -> I (fst (h w)).

Definition never (p : Action -> bool) (h : Handler) : Prop :=
  forall w, existsb p (snd (h w)) = false.

(** The customer service info is still the one of the first render. *)
Definition customerServiceUnset (w : World) : Prop :=
  customerServiceInfo w = {| cs_phone := ""; cs_message := "" |}.

(** The ride form holds a passenger count that the form can produce. *)
Definition rideFormOk (w : World) : Prop :=
  passengerCountOfForm (passenger_count (rideRequest w)).

(** How many of the events are timers that were due and ran their
    callback: the auto-dismissals of the run. *)
Fixpoint dismissals (w : World) (es : list Event) : nat :=
  match es with
  | [] => 0
  | e :: es =>
      (match e with
       | TimeoutFires id => if timerDue id w then 1 else 0
       | _ => 0
       end + dismissals (fst (step w e)) es)%nat
  end.

(** How many notifications were posted between two states: [showAlert]
    is the only caller of [setTimeout], and each call takes one id. *)
Definition postsBetween (w w' : World) : Z :=
  (Z.of_N (nextTimerId w') - Z.of_N (nextTimerId w))%Z.

(** Timers started so far minus timers pending: the timers that are gone. *)
Definition timersGone (w : World) : Z :=
  (Z.of_N (nextTimerId w) - Z.of_nat (length (timeouts w)))%Z.

Definition timersGoneIs (c : Z) (w : World) : Prop := timersGone w = c.

(** ** Sample values *)

Definition riyadhAirport : GeoPosition := {| lat := 24.9576; lng := 46.6988 |}.

Definition activeDriver : UserProfile :=
  {| name := "Salem"; phone := "0501234567"; user_type := "driver";
     is_activated := true; activation_expires := Some "2026-01-01" |}.

Definition pendingDriver : UserProfile :=
  {| name := "Salem"; phone := "0501234567"; user_type := "driver";
     is_activated := false; activation_expires := None |}.

Definition passengerMona : UserProfile :=
  {| name := "Mona"; phone := ""; user_type := "passenger";
     is_activated := false; activation_expires := None |}.

Definition forbidden : AxiosError := {| status := Some 403%Z; detail := None |}.

Definition unauthorized : AxiosError := {| status := Some 401%Z; detail := None |}.

Definition networkError : AxiosError := {| status := None; detail := None |}.

Definition activationExpiredMessage : string :=
  "انتهت صلاحية التفعيل. يرجى تجديد الاشتراك.".

(** An activated driver with a known position, just signed in. *)
Definition drivingWorld : World :=
  fst (run (fst (startup true ∅))
         [PositionFound riyadhAirport;
          LoginAnswered (Resolved {| access_token := "t1";
                                     auth_user := activeDriver;
                                     auth_message := "" |})]).

(** Two registration attempts that the backend refuses, three seconds
    apart: each refusal posts a notification. *)
Definition twoRefusals : list Event :=
  [SubmitPassengerRegister;
   PassengerRegisterAnswered
     (Rejected {| status := Some 400%Z; detail := Some "first" |});
   Elapse 3000;
   SubmitPassengerRegister;
   PassengerRegisterAnswered
     (Rejected {| status := Some 400%Z; detail := Some "second" |})].

(** A passenger with a known position, just signed in. *)
Definition passengerWorld : World :=
  fst (run (fst (startup true ∅))
         [PositionFound riyadhAirport;
          LoginAnswered (Resolved {| access_token := "t2";
                                     auth_user := passengerMona;
                                     auth_message := "" |})]).

(** ** Further parts of the component *)

(** The condition of line 118: the taxi poll runs for every signed-in
    user with a known position. *)
Definition pollerActive (u : option UserProfile)
    (loc : option GeoPosition) : bool :=
  match u, loc with
  | Some _, Some _ => true
  | _, _ => false
  end.

(** The interval of the poll is installed exactly when the condition of
    line 118 holds now, and its closure is the current one. *)
Definition taxiInv (w : World) : Prop :=
  taxiInterval w =
    if pollerActive (user w) (currentLocation w)
    then Some (closureOf w) else None.

(** What the poll depends on has the given values. *)
Definition taxiView (u : option UserProfile) (l : option GeoPosition)
    (r : option Closure) (w : World) : Prop :=
  user w = u /\ currentLocation w = l /\ taxiInterval w = r.

(** What the two effects send when they run in a state with this profile
    and position: the first fetch of the poll, then the first report. *)
Definition effectsOutput (u : option UserProfile)
    (loc : option GeoPosition) : list Action :=
  match u, loc with
  | Some _, Some l =>
      Http (GetTaxisNearby (lat l) (lng l)) ::
      (if reporterActive u loc
       then [Http (PostDriverLocation (lat l) (lng l))] else [])
  | _, _ => []
  end.

Definition isPolling (a : Action) : bool :=
  match a with
  | Http (GetTaxisNearby _ _) => true
  | Http (PostDriverLocation _ _) => true
  | _ => false
  end.

Definition isProfileFetch (a : Action) : bool :=
  match a with
  | Http GetMe => true
  | _ => false
  end.

(** The token that line 105 accepts: present and not the empty string. *)
Definition storedToken (storage : gmap string string) : option string :=
  match storage !! "token" with
  | Some t => if String.eqb t "" then None else Some t
  | None => None
  end.

(** The header on outgoing requests is the bearer of the stored token,
    and a stored non-empty token is on outgoing requests. *)
Definition credentialInSync (w : World) : Prop :=
  (forall h, headers w !! "Authorization" = Some h ->
     exists t, localStorage w !! "token" = Some t /\ h = "Bearer " ++ t) /\
  (forall t, localStorage w !! "token" = Some t -> t <> "" ->
     headers w !! "Authorization" = Some ("Bearer " ++ t)).

(** The alert is the hidden one of lines 54 and 127, or a displayed one
    of the two kinds the render knows (lines 285 to 294) whose dismissal
    timer of line 127 is still pending and due at most 5 seconds from
    now. *)
Definition alertInv (w : World) : Prop :=
  alert w = alertHidden \/
  (show (alert w) = true /\
   (type (alert w) = "success" \/ type (alert w) = "error") /\
   exists t, In t (timeouts w) /\ (snd t <= now w + 5000)%N).

(** The events whose handler calls [showAlert]: the answers to a login,
    to a registration and to a ride request, and a location report
    rejected with status 403 (lines 172 to 174, 190 to 193, 212 to 215,
    231 to 233, 252 to 255). *)
Definition postsAlert (e : Event) : bool :=
  match e with
  | LoginAnswered _
  | PassengerRegisterAnswered _
  | DriverRegisterAnswered _
  | RideAnswered _ => true
  | LocationAnswered (Rejected error) =>
      bool_decide (status error = Some 403%Z)
  | _ => false
  end.

(** The answers that run the [try] branch to its end. *)
Definition succeeded (e : Event) : bool :=
  match e with
  | LoginAnswered (Resolved _)
  | PassengerRegisterAnswered (Resolved _)
  | DriverRegisterAnswered (Resolved _)
  | RideAnswered (Resolved _) => true
  | _ => false
  end.

Definition timersAre (ts : list (N * N)) (n t : N) (w : World) : Prop :=
  timeouts w = ts /\ nextTimerId w = n /\ now w = t.

Definition alertFrame (a : Alert) (ts : list (N * N)) (n : N) (w : World)
    : Prop :=
  alert w = a /\ timeouts w = ts /\ nextTimerId w = n.

Definition postedIs (ty : string) (ts : list (N * N)) (n : N) (w : World)
    : Prop :=
  show (alert w) = true /\ type (alert w) = ty /\
  timeouts w = ts /\ nextTimerId w = n.

Definition customerServiceIs (i : CustomerServiceInfo) (w : World) : Prop :=
  customerServiceInfo w = i.

Definition located (w : World) : Prop := currentLocation w <> None.

Definition locationIs (l : option GeoPosition) (w : World) : Prop :=
  currentLocation w = l.

(** The two callbacks of [getCurrentPosition]. *)
Definition isPositionEvent (e : Event) : bool :=
  match e with
  | PositionFound _ | PositionFailed => true
  | _ => false
  end.

Definition sessionIs (u : option UserProfile) (m h : gmap string string)
    (w : World) : Prop :=
  user w = u /\ localStorage w = m /\ headers w = h.

(** Lines 267 to 271: what [window.open] is called with, if it is. *)
Definition callCustomerService (w : World) : option string :=
  if String.eqb (cs_phone (customerServiceInfo w)) "" then None
  else Some ("tel:" ++ cs_phone (customerServiceInfo w)).

(** *** Lines 379 to 493: the driver registration form *)

Module DriverForm.
Record t := {
  phone : string;
  name : string;
  car_registration_number : string;
  operating_number : string;
  taxi_office_name : string;
  taxi_office_phone : string;
  password : string;
  activation_code : string
}.
End DriverForm.

(** The two [pattern] attributes use literal characters and [\d] only. *)
Inductive Atom :=
| Lit (c : ascii)
| Digit.

Definition isDigit (c : ascii) : bool :=
  let n := N_of_ascii c in (48 <=? n)%N && (n <=? 57)%N.

Definition atomMatches (a : Atom) (c : ascii) : bool :=
  match a with
  | Lit l => Ascii.eqb l c
  | Digit => isDigit c
  end.

(** A pattern of atoms against the whole value, as [^...$] asks. *)
Fixpoint matchAtoms (p : list Atom) (s : string) : bool :=
  match p, s with
  | [], EmptyString => true
  | a :: p, String c s => atomMatches a c && matchAtoms p s
  | _, _ => false
  end.

(** [^05\d{8}$], line 408. *)
Definition phonePattern : list Atom :=
  [Lit "0"; Lit "5"; Digit; Digit; Digit; Digit; Digit; Digit; Digit; Digit].

(** [^05\d{5}$], line 421. *)
Definition activationCodePattern : list Atom :=
  [Lit "0"; Lit "5"; Digit; Digit; Digit; Digit; Digit].

Definition phoneMaxLength : nat := 10.

Definition activationCodeMaxLength : nat := 7.

Definition filled (s : string) : bool := negb (String.eqb s "").

(** What the browser checks before it dispatches [submit]: every input of
    the form is [required], two of them have a [pattern]. *)
Definition driverFormValid (f : DriverForm.t) : bool :=
  filled (DriverForm.phone f) && matchAtoms phonePattern (DriverForm.phone f) &&
  filled (DriverForm.activation_code f) &&
  matchAtoms activationCodePattern (DriverForm.activation_code f) &&
  filled (DriverForm.name f) &&
  filled (DriverForm.car_registration_number f) &&
  filled (DriverForm.operating_number f) &&
  filled (DriverForm.taxi_office_name f) &&
  filled (DriverForm.taxi_office_phone f) &&
  filled (DriverForm.password f).

(** Pressing the submit button of the driver form. *)
Definition driverForm_submit (f : DriverForm.t) : Handler :=
  if driverFormValid f then whenAnonymous handleDriverRegister else skip.

(** *** The earlier variant of the component, lines 903 to 914 *)

Module Simple.
Definition handleLocationUpdate (cl : Closure) : Handler :=
  match c_user cl, c_location cl with
  | Some u, Some loc =>
      if negb (String.eqb (user_type u) "driver")
      then skip
      else emit (Http (PostDriverLocation (lat loc) (lng loc)))
  | _, _ => skip
  end.

(** Lines 945 to 951. *)
Definition effect_locationReporter : Handler :=
  fun w =>
    match user w, currentLocation w with
    | Some u, Some _ =>
        if String.eqb (user_type u) "driver"
        then (handleLocationUpdate (closureOf w) ;;
              modify (set_reporterInterval (Some (closureOf w)))) w
        else skip w
    | _, _ => skip w
    end.
End Simple.

Definition sampleDriverForm : DriverForm.t :=
  {| DriverForm.phone := "0501234567";
     DriverForm.name := "Salem";
     DriverForm.car_registration_number := "ABC 1234";
     DriverForm.operating_number := "77";
     DriverForm.taxi_office_name := "Office";
     DriverForm.taxi_office_phone := "0112345678";
     DriverForm.password := "secret";
     DriverForm.activation_code := "0500001" |}.

Definition storageIs (m : gmap string string) (w : World) : Prop :=
  localStorage w = m.


(** Nobody is signed in and neither interval is installed. *)
Definition idle (w : World) : Prop :=
  user w = None /\ taxiInterval w = None /\ reporterInterval w = None.


(** * Properties *)

Local Arguments String.eqb : simpl never.

(** ** Sequencing *)

Lemma andThen_fst (h1 h2 : Handler) (w : World) :
  fst ((h1 ;; h2) w) = fst (h2 (fst (h1 w))).
Proof. reflexivity. Qed.

Lemma andThen_snd (h1 h2 : Handler) (w : World) :
  snd ((h1 ;; h2) w) = (snd (h1 w) ++ snd (h2 (fst (h1 w))))%list.
Proof. reflexivity. Qed.

Lemma reachable_run (w : World) (es : list Event) :
  reachable w -> reachable (fst (run w es)).
Proof.
  revert w. induction es as [|e es IH]; intros w Hr; cbn; [assumption|].
  apply IH, reachable_step, Hr.
Qed.

Section Compose.
Variable I : World -> Prop.
Variable p : Action -> bool.

Lemma preserves_at (h : Handler) (w : World) :
  preserves I h -> I w -> I (fst (h w)).
Proof. intros Hh. apply Hh. Qed.

Lemma preserves_andThen (h1 h2 : Handler) :
  preserves I h1 -> preserves I h2 -> preserves I (h1 ;; h2).
Proof. intros H1 H2 w Hw. rewrite andThen_fst. apply H2, H1, Hw. Qed.

Lemma preserves_skip : preserves I skip.
Proof. intros w Hw. exact Hw. Qed.

Lemma preserves_emit (a : Action) : preserves I (emit a).
Proof. intros w Hw. exact Hw. Qed.

Lemma preserves_modify (f : World -> World) :
  (forall w, I w -> I (f w)) -> preserves I (modify f).
Proof. intros Hf w Hw. apply Hf, Hw. Qed.

Lemma preserves_chosen (options : list string) (i : nat)
    (h : string -> Handler) :
  (forall v, In v options -> preserves I (h v)) ->
  preserves I (chosen options i h).
Proof.
  intros Hh. unfold chosen. destruct (options !! i) as [v|] eqn:Hv.
  - apply Hh. apply list_elem_of_In. eapply list_elem_of_lookup_2. exact Hv.
  - apply preserves_skip.
Qed.

Lemma never_at (h : Handler) (w : World) :
  never p h -> existsb p (snd (h w)) = false.
Proof. intros Hh. apply Hh. Qed.

Lemma never_andThen (h1 h2 : Handler) :
  never p h1 -> never p h2 -> never p (h1 ;; h2).
Proof.
  intros H1 H2 w. rewrite andThen_snd, existsb_app, H1, H2. reflexivity.
Qed.

Lemma never_skip : never p skip.
Proof. intros w. reflexivity. Qed.

Lemma never_emit (a : Action) : p a = false -> never p (emit a).
Proof. intros Ha w. cbn. rewrite Ha. reflexivity. Qed.

Lemma never_modify (f : World -> World) : never p (modify f).
Proof. intros w. reflexivity. Qed.
End Compose.

Ltac head_of t :=
  lazymatch t with
  | ?f _ => head_of f
  | _ => t
  end.

Ltac split_goal_reads :=
  repeat match goal with
         | |- context [match ?x with _ => _ end] => destruct x
         end.

(** Walks through a handler: sequencing and the three primitives by the
    lemmas above, a case distinction by cases, a handler that reads the
    state pointwise, a named handler by its definition.  What it leaves
    are the updates that touch what the invariant talks about. *)
Ltac walk :=
  lazymatch goal with
  | |- preserves _ (andThen _ _) => apply preserves_andThen; walk
  | |- preserves _ skip => apply preserves_skip
  | |- preserves _ (emit _) => apply preserves_emit
  | |- preserves _ (modify _) =>
      apply preserves_modify; try (intros [] ?; assumption)
  | |- preserves _ (match ?x with _ => _ end) => destruct x; walk
  | |- preserves _ (fun _ => _) =>
      let w := fresh "w" in
      let H := fresh "Hw" in
      intros w H; cbv beta zeta; split_goal_reads;
      (apply preserves_at; [walk | exact H])
  | |- preserves _ ?h =>
      let hd := head_of h in unfold hd; cbv beta iota; walk
  | |- never _ (andThen _ _) => apply never_andThen; walk
  | |- never _ skip => apply never_skip
  | |- never _ (emit _) => apply never_emit; reflexivity
  | |- never _ (modify _) => apply never_modify
  | |- never _ (match ?x with _ => _ end) => destruct x; walk
  | |- never _ (fun _ => _) =>
      let w := fresh "w" in
      intros w; cbv beta zeta; split_goal_reads;
      (apply never_at; walk)
  | |- never _ ?h =>
      let hd := head_of h in unfold hd; cbv beta iota; walk
  end.

(** ** The reporter's interval follows the profile and the position *)

Lemma quiet_intro (h : Handler) :
  (forall u l r, preserves (reporterView u l r) h) ->
  never isLocationReport h ->
  quiet h.
Proof.
  intros Hp Hn w.
  destruct (Hp (user w) (currentLocation w) (reporterInterval w) w)
    as (Hu & Hl & Hr); [repeat split|].
  repeat split; try assumption. apply Hn.
Qed.

(** The effects install the reporter exactly when line 275 allows it,
    and its first report goes out only then. *)
Lemma runEffects_spec (w : World) :
  user (fst (runEffects w)) = user w /\
  currentLocation (fst (runEffects w)) = currentLocation w /\
  reporterInv (fst (runEffects w)) /\
  (reporterActive (user w) (currentLocation w) = false ->
   noReport (snd (runEffects w))).
Proof.
  unfold runEffects, reporterInv, noReport.
  destruct w as [u loc ? ? ? ? ? ? ? ? ? ? ? ?].
  destruct u as [u|], loc as [loc|]; cbn; auto.
  destruct (String.eqb (user_type u) "driver") eqn:Ht, (is_activated u) eqn:Ha;
    cbn; rewrite ?Ht, ?Ha; cbn; auto.
Qed.

Lemma quiet_keeps (h : Handler) (w : World) :
  quiet h -> reporterInv w ->
  reporterInv (fst (h w)) /\ noReport (snd (h w)).
Proof.
  intros Hq Hinv. destruct (Hq w) as (Hu & Hl & Hr & Ho).
  split; [|assumption].
  unfold reporterInv, closureOf in *. rewrite Hu, Hl, Hr. exact Hinv.
Qed.

Lemma effects_keep (h : Handler) (w : World) :
  never isLocationReport h ->
  let r := (h ;; runEffects) w in
  reporterInv (fst r) /\
  (reporterActive (user (fst r)) (currentLocation (fst r)) = false ->
   noReport (snd r)).
Proof.
  intros Hs r. subst r. rewrite andThen_fst, andThen_snd.
  destruct (runEffects_spec (fst (h w))) as (Hu & Hl & Hinv & Ho).
  split; [assumption|].
  rewrite Hu, Hl. intros Hoff. unfold noReport.
  rewrite existsb_app, (Hs w). apply Ho, Hoff.
Qed.

(** A tick of the reporter changes nothing, and sends nothing when the
    condition fails now: then no interval is installed. *)
Lemma reporterTick_keeps (w : World) :
  reporterInv w ->
  let r := tick reporterInterval handleLocationUpdate w in
  fst r = w /\
  (reporterActive (user w) (currentLocation w) = false -> snd r = []).
Proof.
  unfold reporterInv, tick. intros Hinv.
  destruct (reporterActive (user w) (currentLocation w)) eqn:Hact;
    rewrite Hinv; cbn.
  - split; [|discriminate].
    unfold handleLocationUpdate, closureOf; cbn.
    destruct (user w) as [u|], (currentLocation w) as [loc|]; try reflexivity.
    destruct (negb _ || negb _); reflexivity.
  - auto.
Qed.

(** Every event keeps the invariant, and sends a report only into a state
    where the condition holds.  An event either leaves the profile, the
    position and the interval alone and sends no report, or ends with the
    effects. *)
Lemma step_keeps (w : World) (e : Event) :
  reporterInv w ->
  reporterInv (fst (step w e)) /\
  (reporterActive (user (fst (step w e)))
     (currentLocation (fst (step w e))) = false ->
   noReport (snd (step w e))).
Proof.
  intros Hinv.
  assert (Hq : forall h, quiet h ->
     reporterInv (fst (h w)) /\
     (reporterActive (user (fst (h w))) (currentLocation (fst (h w))) = false ->
      noReport (snd (h w)))).
  { intros h Hh. destruct (quiet_keeps h w Hh Hinv). auto. }
  destruct e as [p| |[d|err]|r|r| |[d|err]| |[d|err]| |[d|err]|r|v|v|i|i| |r| | | |dt|id];
    cbn [step];
    try (apply effects_keep; walk);
    try (apply Hq, quiet_intro; [intros; walk | walk]).
  - (* logout, where there is a button *)
    unfold whenSignedIn. destruct (user w).
    + apply effects_keep. walk.
    + apply Hq, quiet_intro; [intros; walk | walk].
  - (* the tick of the reporter *)
    destruct (reporterTick_keeps w Hinv) as [Hw Hout].
    rewrite Hw. split; [assumption|].
    intros Hoff. rewrite (Hout Hoff). reflexivity.
Qed.

Lemma startup_reporterInv (hasGeolocation : bool) (storage : gmap string string) :
  reporterInv (fst (startup hasGeolocation storage)).
Proof.
  unfold startup, mount.
  rewrite !andThen_fst. apply runEffects_spec.
Qed.

Lemma reachable_reporterInv (w : World) : reachable w -> reporterInv w.
Proof.
  induction 1 as [g s | w e Hr IH].
  - apply startup_reporterInv.
  - apply step_keeps, IH.
Qed.

Lemma startup_noReport (hasGeolocation : bool) (storage : gmap string string) :
  noReport (snd (startup hasGeolocation storage)).
Proof.
  unfold startup, mount, noReport, effect_restore, initialWorld, andThen.
  destruct hasGeolocation; cbn; destruct (storage !! "token") as [t|]; cbn;
    try reflexivity; destruct (String.eqb t ""); reflexivity.
Qed.

(** The guard of line 222 on its own: with a closure that fails the
    condition, the handler returns before the request. *)
Lemma handleLocationUpdate_guard (cl : Closure) (w : World) :
  reporterActive (c_user cl) (c_location cl) = false ->
  handleLocationUpdate cl w = (w, []).
Proof.
  unfold reporterActive, handleLocationUpdate.
  destruct (c_user cl) as [u|], (c_location cl) as [loc|]; try reflexivity.
  destruct (String.eqb (user_type u) "driver"), (is_activated u);
    cbn; intros; (discriminate || reflexivity).
Qed.

(** C1. A location report goes out only in a state where the session has
    a profile, the profile is a driver's, [is_activated] is true and a
    position is known: however the component arrived in a state where one
    of these fails (by mounting or by any event from any reachable state),
    it sent no report to [/driver/location] on the way. *)
Theorem no_location_report_unless_active (w : World) (out : list Action) :
  arrives w out ->
  reporterActive (user w) (currentLocation w) = false ->
  existsb isLocationReport out = false.
Proof.
  intros Harr Hoff. destruct Harr as [g s | w e Hr].
  - apply startup_noReport.
  - apply (step_keeps w e (reachable_reporterInv w Hr)). exact Hoff.
Qed.

(** A driver who is not activated signs in while the position is known:
    the taxi poll starts, no report is sent. *)
Lemma no_location_report_unless_active_witness :
  let w0 := fst (step (fst (startup true ∅)) (PositionFound riyadhAirport)) in
  let e := LoginAnswered (Resolved {| access_token := "t1";
                                       auth_user := pendingDriver;
                                       auth_message := "" |}) in
  roleState (fst (step w0 e)) = driver_pending_activation /\
  existsb isLocationReport (snd (step w0 e)) = false.
Proof.
  intros w0 e. split; [reflexivity|].
  apply (no_location_report_unless_active (fst (step w0 e)) (snd (step w0 e))).
  - apply arrives_step, reachable_step, reachable_startup.
  - reflexivity.
Defined.

(** In particular a driver profile with [is_activated = false] never has
    a report sent for it. *)
Lemma pending_driver_never_reports (w : World) (out : list Action)
    (u : UserProfile) :
  arrives w out -> user w = Some u -> is_activated u = false ->
  existsb isLocationReport out = false.
Proof.
  intros Harr Hu Hact.
  assert (Hoff : reporterActive (user w) (currentLocation w) = false).
  { unfold reporterActive. rewrite Hu, Hact.
    destruct (currentLocation w); [apply andb_false_r | reflexivity]. }
  destruct Harr as [g s | w e Hr].
  - apply startup_noReport.
  - apply (step_keeps w e (reachable_reporterInv w Hr)). exact Hoff.
Qed.

(** ** A 403 on a report *)

(** C2, as the code has it. A 403 on a location report posts the error
    notification (with its 5-second timer) and nothing else: the whole
    step is the state with that alert and that timer, and one line on the
    console.  So the profile, and with it the role state, stays what it
    was, the interval of the reporter stays installed, and for an
    activated driver with a known position the next tick sends the report
    again. *)
Theorem forbidden_report_notifies_and_reporting_goes_on
    (w : World) (err : AxiosError) (loc : GeoPosition) :
  reachable w ->
  status err = Some 403%Z ->
  roleState w = driver_active ->
  currentLocation w = Some loc ->
  let w' := fst (step w (LocationAnswered (Rejected err))) in
  step w (LocationAnswered (Rejected err)) =
    (setTimeout 5000
       (setAlert {| show := true; type := "error";
                    message := activationExpiredMessage |} w),
     [ConsoleError "Error updating location:"]) /\
  alert w' = {| show := true; type := "error";
                message := activationExpiredMessage |} /\
  timeouts w' = (timeouts w ++ [(nextTimerId w, (now w + 5000)%N)])%list /\
  user w' = user w /\
  roleState w' = driver_active /\
  reporterInterval w' = reporterInterval w /\
  snd (step w' ReporterTick) = [Http (PostDriverLocation (lat loc) (lng loc))].
Proof.
  intros Hr Hst Hrole Hloc w'.
  assert (Hinv := reachable_reporterInv w Hr).
  assert (Hstep : step w (LocationAnswered (Rejected err)) =
    (setTimeout 5000
       (setAlert {| show := true; type := "error";
                    message := activationExpiredMessage |} w),
     [ConsoleError "Error updating location:"])).
  { cbn [step]. unfold handleLocationUpdate_then.
    rewrite Hst. rewrite bool_decide_eq_true_2 by reflexivity.
    reflexivity. }
  split; [exact Hstep|].
  subst w'. rewrite Hstep. cbn [fst].
  destruct w as [u l ? ? ? ? ? ? ? ? ? ? ? ri]; cbn in *.
  repeat split; try assumption.
  unfold tick; cbn. subst l.
  unfold roleState in Hrole; cbn in Hrole.
  unfold reporterInv in Hinv; cbn in Hinv.
  destruct u as [u|]; [|discriminate].
  destruct (String.eqb (user_type u) "driver") eqn:Ht; [|discriminate].
  destruct (is_activated u) eqn:Ha; [|discriminate].
  unfold reporterActive, closureOf in Hinv. cbn in Hinv.
  rewrite Ht, Ha in Hinv. cbn in Hinv. subst ri.
  unfold handleLocationUpdate; cbn.
  rewrite Ht, Ha. reflexivity.
Qed.

Lemma forbidden_report_notifies_and_reporting_goes_on_witness :
  let w' := fst (step drivingWorld (LocationAnswered (Rejected forbidden))) in
  show (alert w') = true /\
  roleState w' = driver_active /\
  localStorage w' = localStorage drivingWorld /\
  taxiInterval w' = taxiInterval drivingWorld /\
  snd (step w' ReporterTick) =
    [Http (PostDriverLocation (lat riyadhAirport) (lng riyadhAirport))].
Proof.
  intros w'.
  destruct (forbidden_report_notifies_and_reporting_goes_on
              drivingWorld forbidden riyadhAirport)
    as (He & Ha & _ & _ & Hs & _ & Ht).
  - apply reachable_run, reachable_startup.
  - reflexivity.
  - reflexivity.
  - reflexivity.
  - subst w'. split; [rewrite Ha; reflexivity|].
    split; [exact Hs|].
    split; [rewrite He; vm_compute; reflexivity|].
    split; [rewrite He; vm_compute; reflexivity | exact Ht].
Defined.

(** C2, as stated, fails: after the 403 the driver is still
    [driver_active], not [driver_pending_activation], and the tick that
    follows sends a report. *)
Lemma forbidden_report_does_not_suspend_reporting :
  let w' := fst (step drivingWorld (LocationAnswered (Rejected forbidden))) in
  roleState drivingWorld = driver_active /\
  roleState w' <> driver_pending_activation /\
  reporterActive (user w') (currentLocation w') = true /\
  existsb isLocationReport (snd (step w' ReporterTick)) = true.
Proof. vm_compute. repeat split; discriminate. Qed.

(** ** The notification slot *)

Lemma timerDue_filtered (id n : N) (l : list (N * N)) :
  existsb (fun t => (fst t =? id)%N && (snd t <=? n)%N)
    (List.filter (fun t => negb (fst t =? id)%N) l) = false.
Proof.
  induction l as [|t l IH]; [reflexivity|]. cbn.
  destruct (fst t =? id)%N eqn:Hid; cbn; [assumption|].
  rewrite Hid. cbn. assumption.
Qed.

Lemma setTimeout_timersGone (delay : N) (w : World) :
  timersGone (setTimeout delay w) = timersGone w.
Proof.
  unfold timersGone, setTimeout. destruct w; cbn.
  rewrite length_app. cbn. lia.
Qed.

Lemma step_timersGone (e : Event) (c : Z) :
  (forall id, e <> TimeoutFires id) ->
  preserves (timersGoneIs c) (fun w => step w e).
Proof.
  intros He. destruct e; unfold step; try (walk; fail).
  all: try (walk; intros ? <-; apply setTimeout_timersGone).
  exfalso. eapply He. reflexivity.
Qed.

Lemma filter_due_shorter (id n : N) (l : list (N * N)) :
  existsb (fun t => (fst t =? id)%N && (snd t <=? n)%N) l = true ->
  (length (List.filter (fun t => negb (fst t =? id)%N) l) < length l)%nat.
Proof.
  induction l as [|t l IH]; cbn; [discriminate|].
  destruct (fst t =? id)%N eqn:Hid; cbn.
  - intros _. pose proof (filter_length_le (fun t => negb (fst t =? id)%N) l).
    lia.
  - intros H. apply IH in H. lia.
Qed.

Lemma fireTimeout_timersGone (id : N) (w : World) :
  (timersGone w + (if timerDue id w then 1 else 0)
   <= timersGone (fst (fireTimeout id w)))%Z.
Proof.
  unfold fireTimeout. destruct (timerDue id w) eqn:Hdue; cbn; [|lia].
  unfold timersGone; cbn.
  pose proof (filter_due_shorter id (now w) (timeouts w) Hdue). lia.
Qed.

Lemma dismissals_timersGone (w : World) (es : list Event) :
  (timersGone w + Z.of_nat (dismissals w es) <= timersGone (fst (run w es)))%Z.
Proof.
  revert w. induction es as [|e es IH]; intros w; cbn [dismissals run fst].
  - lia.
  - specialize (IH (fst (step w e))).
    assert (Hstep : (timersGone w +
                     match e with
                     | TimeoutFires id => if timerDue id w then 1 else 0
                     | _ => 0
                     end <= timersGone (fst (step w e)))%Z).
    { destruct e;
        try (rewrite (step_timersGone _ (timersGone w)); [lia|discriminate|reflexivity]).
      apply fireTimeout_timersGone. }
    destruct e; try destruct (timerDue id w); lia.
Qed.

Lemma dismissals_bounded (w : World) (es : list Event) :
  (Z.of_nat (dismissals w es)
   <= Z.of_nat (length (timeouts w)) + postsBetween w (fst (run w es)))%Z.
Proof.
  pose proof (dismissals_timersGone w es) as H.
  unfold timersGone, postsBetween in *. lia.
Qed.

(** C3, as the code has it. A post replaces whatever is displayed and
    adds one timer due in 5 seconds; the timers already pending stay.
    Whichever pending timer comes due later, an earlier one or the new
    one, hides the notification displayed then and is gone afterwards, so
    it fires at most once; over any run the dismissals are at most the
    timers pending at its start plus the posts made during it. *)
Theorem post_replaces_and_every_pending_timer_dismisses
    (w : World) (type message : string) (dt id : N) (es : list Event) :
  let w1 := fst (showAlert type message w) in
  let w2 := fst (step w1 (Elapse dt)) in
  let w3 := fst (step w2 (TimeoutFires id)) in
  timerDue id w2 = true ->
  alert w1 = {| show := true; type := type; message := message |} /\
  timeouts w1 = (timeouts w ++ [(nextTimerId w, (now w + 5000)%N)])%list /\
  alert w2 = alert w1 /\
  alert w3 = alertHidden /\
  timeouts w3 = List.filter (fun t => negb (fst t =? id)%N) (timeouts w1) /\
  timerDue id w3 = false /\
  step w3 (TimeoutFires id) = (w3, []) /\
  (Z.of_nat (dismissals w es)
   <= Z.of_nat (length (timeouts w)) + postsBetween w (fst (run w es)))%Z.
Proof.
  intros w1 w2 w3 Hdue.
  assert (H3 : timerDue id w3 = false).
  { subst w3. cbn [step]. unfold fireTimeout. rewrite Hdue.
    unfold timerDue; cbn. apply timerDue_filtered. }
  repeat split; try assumption.
  - subst w3. cbn [step]. unfold fireTimeout. rewrite Hdue. reflexivity.
  - subst w3. cbn [step]. unfold fireTimeout. rewrite Hdue. reflexivity.
  - cbn [step]. unfold fireTimeout. rewrite H3. reflexivity.
  - apply dismissals_bounded.
Qed.

Lemma post_replaces_and_every_pending_timer_dismisses_witness :
  let w := fst (run (fst (startup true ∅))
                  [SubmitLogin; LoginAnswered (Rejected unauthorized);
                   Elapse 3000]) in
  let w1 := fst (showAlert "error" "second" w) in
  let w3 := fst (run w1 [Elapse 2000; TimeoutFires 1]) in
  timeouts w1 = [(1, 5000); (2, 8000)]%N /\ alert w3 = alertHidden.
Proof.
  intros w w1 w3.
  destruct (post_replaces_and_every_pending_timer_dismisses
              w "error" "second" 2000 1 []) as (_ & Ht & _ & Ha & _).
  - reflexivity.
  - split; [exact Ht | exact Ha].
Defined.

(** C3, as stated, fails: the second post leaves the first timer pending,
    and that timer hides the second notification 2 seconds after it was
    posted. *)
Lemma stale_timer_dismisses_later_notification :
  let w2 := fst (run (fst (startup true ∅)) twoRefusals) in
  let w3 := fst (run w2 [Elapse 2000; TimeoutFires 1]) in
  now w2 = 3000%N /\
  alert w2 = {| show := true; type := "error"; message := "second" |} /\
  timeouts w2 = [(1, 5000); (2, 8000)]%N /\
  now w3 = 5000%N /\
  alert w3 = alertHidden /\
  timeouts w3 = [(2, 8000)]%N.
Proof. vm_compute. repeat split. Qed.

(** ** The nearby-taxi poll *)

(** C4. A tick of the poll only sends the fetch; the held list changes
    when the answer comes: a success makes it exactly the list of the
    response, whatever was held; a failure leaves the whole state as it
    was, the held list included, and only logs to the console. *)
Theorem nearby_success_replaces_failure_retains
    (w : World) (data : list NearbyTaxi) (err : AxiosError) :
  fst (step w TaxiTick) = w /\
  nearbyTaxis (fst (step w (NearbyAnswered (Resolved data)))) = data /\
  snd (step w (NearbyAnswered (Resolved data))) = [] /\
  step w (NearbyAnswered (Rejected err)) =
    (w, [ConsoleError "Error fetching nearby taxis:"]) /\
  nearbyTaxis (fst (step w (NearbyAnswered (Rejected err)))) = nearbyTaxis w.
Proof.
  split; [|repeat split].
  cbn [step]. unfold tick, fetchNearbyTaxis.
  destruct (taxiInterval w) as [cl|]; [|reflexivity].
  destruct (c_location cl); reflexivity.
Qed.

(** ** Restore at startup *)

Lemma lookup_removed (k : string) (m : gmap string string) :
  delete k m !! k = None.
Proof. apply lookup_delete_eq. Qed.

(** What the catch block of lines 134 to 137 does, in any state: it
    removes the token and the header and touches nothing else. *)
Lemma restore_failure_effect (w : World) (err : AxiosError) :
  let w' := fst (step w (ProfileAnswered (Rejected err))) in
  localStorage w' !! "token" = None /\
  headers w' !! "Authorization" = None /\
  user w' = user w /\
  alert w' = alert w /\
  timeouts w' = timeouts w /\
  snd (step w (ProfileAnswered (Rejected err))) = [].
Proof. cbn. rewrite !lookup_removed. repeat split. Qed.

Lemma step_userAbsent (e : Event) :
  storesProfile e = false -> preserves userAbsent (fun w => step w e).
Proof.
  destruct e as [| |[|]| | | |[|]| |[|]| |[|]| | | | | | | | | | | |];
    intros He; try discriminate He; unfold step; walk.
  (* logout stores no profile either *)
  intros ? _. reflexivity.
Qed.

Lemma run_userAbsent (w : World) (es : list Event) :
  forallb (fun e => negb (storesProfile e)) es = true ->
  userAbsent w -> userAbsent (fst (run w es)).
Proof.
  revert w. induction es as [|e es IH]; intros w Hes Hw; [exact Hw|].
  cbn in Hes. apply andb_prop in Hes as [He Hes].
  cbn. apply IH; [exact Hes|].
  apply (step_userAbsent e); [|exact Hw].
  destruct (storesProfile e); [discriminate | reflexivity].
Qed.

Lemma startup_userAbsent (g : bool) (storage : gmap string string) :
  userAbsent (fst (startup g storage)).
Proof. unfold startup. apply preserves_at; [walk | reflexivity]. Qed.

(** X17. After startup, as long as no answer has stored a profile, a
    rejected profile fetch, whatever the error, removes the stored token
    and the Authorization header and leaves the session anonymous; nothing
    is shown: the alert and the pending timers are untouched and nothing
    is sent or logged. *)
Theorem restore_failure_resets_silently
    (g : bool) (storage : gmap string string) (es : list Event)
    (err : AxiosError) :
  forallb (fun e => negb (storesProfile e)) es = true ->
  let w := fst (run (fst (startup g storage)) es) in
  let w' := fst (step w (ProfileAnswered (Rejected err))) in
  localStorage w' !! "token" = None /\
  headers w' !! "Authorization" = None /\
  sessionAnonymous w' /\
  alert w' = alert w /\
  timeouts w' = timeouts w /\
  snd (step w (ProfileAnswered (Rejected err))) = [].
Proof.
  intros Hes w w'.
  destruct (restore_failure_effect w err) as (Ht & Hh & Hu & Ha & Hti & Ho).
  assert (Hw : userAbsent w).
  { apply (run_userAbsent _ es Hes), startup_userAbsent. }
  unfold sessionAnonymous. subst w'. rewrite Hu.
  repeat split; assumption.
Qed.

Lemma restore_failure_resets_silently_witness :
  let storage : gmap string string := {[ "token" := "expired" ]} in
  let w := fst (run (fst (startup true storage)) [PositionFound riyadhAirport]) in
  In (Http GetMe) (snd (startup true storage)) /\
  headers w !! "Authorization" = Some "Bearer expired" /\
  sessionAnonymous (fst (step w (ProfileAnswered (Rejected unauthorized)))) /\
  alert (fst (step w (ProfileAnswered (Rejected unauthorized)))) = alertHidden.
Proof.
  intros storage w.
  destruct (restore_failure_resets_silently
              true storage [PositionFound riyadhAirport] unauthorized)
    as (_ & _ & Hs & Ha & _).
  - reflexivity.
  - split; [vm_compute; auto|]. split; [reflexivity|].
    split; [exact Hs | exact Ha].
Defined.

(** C5 fails on this run.  The storage holds an expired token, so
    mounting sends the request for the profile.  While it is in flight the
    login screen is up (line 282); a login succeeds and stores its profile
    and a fresh token (lines 168 to 170); then the rejection arrives.  The
    catch block of lines 134 to 137 removes the fresh token and the header
    and never clears the profile: the session is not anonymous, it is
    signed in without a credential.  [handleLogout] (lines 260 to 265)
    does the same two removals and then [setUser(null)]. *)
Lemma restore_failure_after_login_keeps_profile :
  let storage : gmap string string := {[ "token" := "expired" ]} in
  let fresh := {| access_token := "fresh"; auth_user := passengerMona;
                  auth_message := "" |} in
  let w := fst (run (fst (startup true storage))
                  [SubmitLogin; LoginAnswered (Resolved fresh)]) in
  let w' := fst (step w (ProfileAnswered (Rejected unauthorized))) in
  In (Http GetMe) (snd (startup true storage)) /\
  snd (step (fst (startup true storage)) SubmitLogin) = [Http PostLogin] /\
  localStorage w !! "token" = Some "fresh" /\
  user w' = Some passengerMona /\
  ~ sessionAnonymous w' /\
  localStorage w' !! "token" = None /\
  headers w' !! "Authorization" = None /\
  user (fst (handleLogout w)) = None.
Proof.
  intros storage fresh w w'.
  assert (Hu : user w' = Some passengerMona) by (vm_compute; reflexivity).
  split; [vm_compute; auto|].
  split; [vm_compute; reflexivity|].
  split; [vm_compute; reflexivity|].
  split; [exact Hu|].
  split; [intros (Hn & _); rewrite Hn in Hu; discriminate|].
  split; [vm_compute; reflexivity|].
  split; [vm_compute; reflexivity | reflexivity].
Qed.

(** ** The ride request *)

Lemma step_rideFormOk (e : Event) : preserves rideFormOk (fun w => step w e).
Proof.
  destruct e; unfold step; try (walk; fail).
  - (* the passenger count is one of the four options *)
    unfold whenPassenger. intros w Hw. cbv beta. split_goal_reads; try exact Hw.
    apply preserves_at; [|exact Hw].
    apply preserves_chosen. intros v Hv w' _. right. exists v. auto.
  - (* the form is reset after a successful request *)
    walk; intros ? _; left; reflexivity.
Qed.

Lemma startup_rideFormOk (g : bool) (storage : gmap string string) :
  rideFormOk (fst (startup g storage)).
Proof.
  unfold startup. apply preserves_at; [walk|]. left. reflexivity.
Qed.

Lemma reachable_rideFormOk (w : World) : reachable w -> rideFormOk w.
Proof.
  induction 1 as [g s | w e Hr IH].
  - apply startup_rideFormOk.
  - apply (step_rideFormOk e w IH).
Qed.

Lemma parseInt_passengerCountOfForm (v : JsVal) :
  passengerCountOfForm v ->
  exists n, parseInt v = Some n /\ (1 <= n <= 4)%Z.
Proof.
  intros [-> | (s & Hs & ->)].
  - exists 1%Z. split; [reflexivity | lia].
  - cbn in Hs. destruct Hs as [<- | [<- | [<- | [<- | []]]]];
      [exists 1%Z | exists 2%Z | exists 3%Z | exists 4%Z];
      (split; [reflexivity | lia]).
Qed.

Example parseInt_option : parseInt (JStr "3") = Some 3%Z.
Proof. reflexivity. Qed.

Example parseInt_prefix : parseInt (JStr "  42px") = Some 42%Z.
Proof. reflexivity. Qed.

Example parseInt_negative_hex : parseInt (JStr "-0x1F") = Some (-31)%Z.
Proof. reflexivity. Qed.

Example parseInt_no_digit : parseInt (JStr "four") = None.
Proof. reflexivity. Qed.

Lemma jsOr_empty (b : string) : jsOr "" b = b.
Proof. reflexivity. Qed.

Lemma jsOr_nonempty (a b : string) : a <> "" -> jsOr a b = a.
Proof.
  intros Ha. unfold jsOr. destruct (String.eqb_spec a ""); congruence.
Qed.

Lemma handleRideRequest_sends (w : World) (loc : GeoPosition) :
  currentLocation w = Some loc ->
  snd (handleRideRequest w) =
    [Http (PostRidesRequest (ridePayload loc (rideRequest w)))].
Proof. unfold handleRideRequest. intros ->. reflexivity. Qed.

(** C6. Submitting the ride form while the destination is empty sends
    nothing and changes nothing (the [required] check of line 619), and
    every request that a submission sends carries a non-empty destination
    and a passenger count that is an integer from 1 to 4: the form only
    ever holds the initial 1 or the value of one of the four options of
    lines 626 to 635, so a count outside the range never gets as far as a
    request.  The checks are the form's; the handler sends what the form
    holds. *)
Theorem ride_form_blocks_empty_destination_and_offers_one_to_four
    (w : World) :
  reachable w ->
  (destination_address (rideRequest w) = "" -> step w SubmitRide = (w, [])) /\
  (forall body,
     In (Http (PostRidesRequest body)) (snd (step w SubmitRide)) ->
     Payload.destination_address body <> "" /\
     exists n, Payload.passenger_count body = Some n /\ (1 <= n <= 4)%Z) /\
  (forall loc,
     currentLocation w = Some loc ->
     snd (handleRideRequest w) =
       [Http (PostRidesRequest (ridePayload loc (rideRequest w)))]).
Proof.
  intros Hr. assert (Hform := reachable_rideFormOk w Hr).
  split; [|split].
  - intros Hd. cbn [step]. unfold whenPassenger, rideForm_submit.
    rewrite Hd. cbn.
    destruct (user w) as [u|]; [|reflexivity].
    destruct (String.eqb (user_type u) "passenger"); reflexivity.
  - intros body. cbn [step]. unfold whenPassenger, rideForm_submit.
    destruct (user w) as [u|]; [|intros []].
    destruct (String.eqb (user_type u) "passenger"); [|intros []].
    destruct (String.eqb_spec (destination_address (rideRequest w)) "")
      as [Hd|Hd]; [intros []|].
    unfold handleRideRequest.
    destruct (currentLocation w) as [loc|]; [|intros []].
    cbn. intros [Hb|[]]. injection Hb as <-. cbn.
    split; [exact Hd|]. apply parseInt_passengerCountOfForm, Hform.
  - apply handleRideRequest_sends.
Qed.

Lemma ride_form_blocks_empty_destination_and_offers_one_to_four_witness :
  let w := fst (run passengerWorld
                  [TypeDestination "King Fahd Road"; ChoosePassengerCount 3]) in
  step passengerWorld SubmitRide = (passengerWorld, []) /\
  (forall body,
     In (Http (PostRidesRequest body)) (snd (step w SubmitRide)) ->
     Payload.destination_address body <> "" /\
     exists n, Payload.passenger_count body = Some n /\ (1 <= n <= 4)%Z) /\
  length (snd (step w SubmitRide)) = 1%nat.
Proof.
  intros w.
  destruct (ride_form_blocks_empty_destination_and_offers_one_to_four
              passengerWorld) as (Hd & _ & _).
  - apply reachable_run, reachable_startup.
  - destruct (ride_form_blocks_empty_destination_and_offers_one_to_four w)
      as (_ & Hb & _).
    + apply reachable_run, reachable_run, reachable_startup.
    + split; [apply Hd; reflexivity|].
      split; [exact Hb | vm_compute; reflexivity].
Defined.

(** C7. With a known position the handler sends one request whose body
    has the position as pickup coordinates, the sentinel as pickup
    address when the form's is empty and the form's own otherwise, the
    destination and the luggage flag of the form, and [parseInt] of the
    form's passenger count, which for everything the form can hold is an
    integer from 1 to 4. *)
Theorem ride_payload_of_form (w : World) (loc : GeoPosition) :
  currentLocation w = Some loc ->
  exists body,
    snd (handleRideRequest w) = [Http (PostRidesRequest body)] /\
    Payload.pickup_latitude body = lat loc /\
    Payload.pickup_longitude body = lng loc /\
    (pickup_address (rideRequest w) = "" ->
     Payload.pickup_address body = "الموقع الحالي") /\
    (pickup_address (rideRequest w) <> "" ->
     Payload.pickup_address body = pickup_address (rideRequest w)) /\
    Payload.destination_address body = destination_address (rideRequest w) /\
    Payload.has_luggage body = has_luggage (rideRequest w) /\
    Payload.passenger_count body = parseInt (passenger_count (rideRequest w)) /\
    (passengerCountOfForm (passenger_count (rideRequest w)) ->
     exists n, Payload.passenger_count body = Some n /\ (1 <= n <= 4)%Z).
Proof.
  intros Hloc. exists (ridePayload loc (rideRequest w)).
  split; [apply handleRideRequest_sends, Hloc|].
  cbn. repeat split.
  - intros ->. reflexivity.
  - apply jsOr_nonempty.
  - apply parseInt_passengerCountOfForm.
Qed.

Lemma ride_payload_of_form_witness :
  let w := fst (run passengerWorld
                  [TypeDestination "King Fahd Road"; ChoosePassengerCount 2]) in
  exists body,
    snd (step w SubmitRide) = [Http (PostRidesRequest body)] /\
    Payload.pickup_address body = currentLocationSentinel /\
    Payload.passenger_count body = Some 3%Z.
Proof.
  intros w.
  destruct (ride_payload_of_form w riyadhAirport) as (body & Hs & _ & _ & Hp & _ & _ & _ & Hc & _).
  - reflexivity.
  - exists body. split; [exact Hs|]. split; [apply Hp; reflexivity | exact Hc].
Defined.

(** ** The position of the device *)

Lemma step_never_positionRequest (e : Event) :
  never isPositionRequest (fun w => step w e).
Proof. destruct e; unfold step; walk. Qed.

Lemma startup_positionRequests (g : bool) (storage : gmap string string) :
  List.filter isPositionRequest (snd (startup g storage)) =
    if g then [GetCurrentPosition] else [].
Proof.
  unfold startup, mount, effect_restore, initialWorld, andThen.
  destruct g; cbn; destruct (storage !! "token") as [t|]; cbn;
    try reflexivity; destruct (String.eqb t ""); reflexivity.
Qed.

Lemma startup_currentLocation (g : bool) (storage : gmap string string) :
  currentLocation (fst (startup g storage)) =
    if g then None else Some defaultLocation.
Proof.
  unfold startup, mount, effect_restore, initialWorld, andThen.
  destruct g; cbn; destruct (storage !! "token") as [t|]; cbn;
    try reflexivity; destruct (String.eqb t ""); reflexivity.
Qed.

(** C8. Mounting asks the device for its position once when the browser
    has the capability, and not at all when it has none; in that case,
    and when the device refuses, the position becomes the one fixed
    default coordinate.  No event, the refusal included, makes the
    component ask again. *)
Theorem position_asked_once_with_one_fallback
    (storage : gmap string string) (w : World) (e : Event) :
  List.filter isPositionRequest (snd (startup true storage)) =
    [GetCurrentPosition] /\
  currentLocation (fst (startup true storage)) = None /\
  List.filter isPositionRequest (snd (startup false storage)) = [] /\
  currentLocation (fst (startup false storage)) = Some defaultLocation /\
  currentLocation (fst (step w PositionFailed)) = Some defaultLocation /\
  defaultLocation = {| lat := 24.7136; lng := 46.6753 |} /\
  existsb isPositionRequest (snd (step w e)) = false.
Proof.
  repeat split.
  - apply (startup_positionRequests true).
  - apply (startup_currentLocation true).
  - apply (startup_positionRequests false).
  - apply (startup_currentLocation false).
  - cbn [step]. rewrite andThen_fst.
    destruct (runEffects_spec (fst (geolocation_error w))) as (_ & -> & _).
    reflexivity.
  - apply (step_never_positionRequest e w).
Qed.

(** ** Logout *)

(** C9. Logout removes the stored token and the Authorization header,
    clears the profile and empties the nearby-taxi list in the same step,
    sending nothing; pressing the button (there is one once signed in)
    also clears both intervals. *)
Theorem logout_clears_session_and_taxis (w : World) :
  let w' := fst (handleLogout w) in
  localStorage w' !! "token" = None /\
  headers w' !! "Authorization" = None /\
  user w' = None /\
  nearbyTaxis w' = [] /\
  snd (handleLogout w) = [] /\
  (user w <> None ->
   let w'' := fst (step w ClickLogout) in
   localStorage w'' !! "token" = None /\
   headers w'' !! "Authorization" = None /\
   user w'' = None /\
   nearbyTaxis w'' = [] /\
   taxiInterval w'' = None /\
   reporterInterval w'' = None /\
   snd (step w ClickLogout) = []).
Proof.
  cbn. rewrite !lookup_removed. repeat split.
  all: unfold whenSignedIn in *; destruct (user w); try congruence; cbn.
  all: try rewrite lookup_removed; reflexivity.
Qed.

Lemma logout_clears_session_and_taxis_witness :
  let w := fst (step drivingWorld
                  (NearbyAnswered (Resolved
                     [{| taxi_id := "7"; driver_name := "Omar";
                         latitude := 24.7; longitude := 46.7 |}]))) in
  nearbyTaxis w <> [] /\
  nearbyTaxis (fst (step w ClickLogout)) = [] /\
  user (fst (step w ClickLogout)) = None.
Proof.
  intros w. split; [discriminate|].
  destruct (logout_clears_session_and_taxis w) as (_ & _ & _ & _ & _ & H).
  destruct H as (_ & _ & Hu & Hn & _); [discriminate|].
  split; [exact Hn | exact Hu].
Defined.

(** ** The customer service info *)

Lemma step_customerServiceUnset (e : Event) :
  isCustomerServiceData e = false ->
  preserves customerServiceUnset (fun w => step w e).
Proof.
  destruct e as [| | |[|]| | | | | | | | | | | | | | | | | | |];
    intros He; try discriminate He; unfold step; walk.
Qed.

Lemma run_customerServiceUnset (w : World) (es : list Event) :
  forallb (fun e => negb (isCustomerServiceData e)) es = true ->
  customerServiceUnset w -> customerServiceUnset (fst (run w es)).
Proof.
  revert w. induction es as [|e es IH]; intros w Hes Hw; [exact Hw|].
  cbn in Hes. apply andb_prop in Hes as [He Hes].
  cbn. apply IH; [exact Hes|].
  apply (step_customerServiceUnset e); [|exact Hw].
  destruct (isCustomerServiceData e); [discriminate | reflexivity].
Qed.

Lemma startup_customerServiceUnset (g : bool) (storage : gmap string string) :
  customerServiceUnset (fst (startup g storage)).
Proof. unfold startup. apply preserves_at; [walk | reflexivity]. Qed.

(** C10. As long as no customer-service answer has delivered data, the
    info is the initial pair of empty strings; a failed fetch then changes
    nothing in the state (so no alert appears and no timer starts) and
    only writes to the console. *)
Theorem customer_service_failure_is_swallowed
    (g : bool) (storage : gmap string string) (es : list Event)
    (err : AxiosError) :
  forallb (fun e => negb (isCustomerServiceData e)) es = true ->
  let w := fst (run (fst (startup g storage)) es) in
  step w (CustomerServiceAnswered (Rejected err)) =
    (w, [ConsoleError "Error fetching customer service info:"]) /\
  customerServiceInfo (fst (step w (CustomerServiceAnswered (Rejected err)))) =
    {| cs_phone := ""; cs_message := "" |} /\
  alert (fst (step w (CustomerServiceAnswered (Rejected err)))) = alert w /\
  timeouts (fst (step w (CustomerServiceAnswered (Rejected err)))) = timeouts w.
Proof.
  intros Hes w. repeat split.
  apply (run_customerServiceUnset _ es Hes), startup_customerServiceUnset.
Qed.

Lemma customer_service_failure_is_swallowed_witness :
  let w := fst (run (fst (startup true ∅)) [PositionFound riyadhAirport]) in
  In (Http GetCustomerServiceInfo) (snd (startup true ∅)) /\
  step w (CustomerServiceAnswered (Rejected networkError)) =
    (w, [ConsoleError "Error fetching customer service info:"]) /\
  customerServiceInfo w = {| cs_phone := ""; cs_message := "" |} /\
  alert w = alertHidden.
Proof.
  intros w. split; [vm_compute; auto|].
  destruct (customer_service_failure_is_swallowed
              true ∅ [PositionFound riyadhAirport] networkError)
    as (Hs & Hc & _).
  - reflexivity.
  - split; [exact Hs|]. split; [exact Hc | reflexivity].
Defined.

(** * Further properties *)

(** ** The poll of nearby taxis *)

Lemma runEffects_out (w : World) :
  user (fst (runEffects w)) = user w /\
  currentLocation (fst (runEffects w)) = currentLocation w /\
  taxiInv (fst (runEffects w)) /\
  snd (runEffects w) = effectsOutput (user w) (currentLocation w).
Proof.
  unfold runEffects, taxiInv, effectsOutput.
  destruct w as [u loc ? ? ? ? ? ? ? ? ? ? ? ?].
  destruct u as [u|], loc as [loc|]; cbn; auto.
  destruct (String.eqb (user_type u) "driver") eqn:Ht, (is_activated u) eqn:Ha;
    cbn; rewrite ?Ht, ?Ha; cbn; auto.
Qed.

Lemma taxiView_keeps (h : Handler) (w : World) :
  (forall u l r, preserves (taxiView u l r) h) ->
  taxiInv w -> taxiInv (fst (h w)).
Proof.
  intros Hp Hinv.
  destruct (Hp (user w) (currentLocation w) (taxiInterval w) w)
    as (Hu & Hl & Hr); [repeat split|].
  unfold taxiInv, closureOf in *. rewrite Hu, Hl, Hr. exact Hinv.
Qed.

Lemma effects_taxiInv (h : Handler) (w : World) :
  taxiInv (fst ((h ;; runEffects) w)).
Proof. rewrite andThen_fst. apply runEffects_out. Qed.

Lemma step_taxiInv (w : World) (e : Event) :
  taxiInv w -> taxiInv (fst (step w e)).
Proof.
  intros Hinv.
  destruct e as [p| |[d|err]|r|r| |[d|err]| |[d|err]| |[d|err]|r|v|v|i|i| |r| | | |dt|id];
    cbn [step];
    try apply effects_taxiInv;
    try solve [apply taxiView_keeps; [intros; walk | exact Hinv]].
  unfold whenSignedIn. destruct (user w) eqn:Hu.
  - apply effects_taxiInv.
  - exact Hinv.
Qed.

Lemma reachable_taxiInv (w : World) : reachable w -> taxiInv w.
Proof.
  induction 1 as [g s | w e Hr IH].
  - unfold startup, mount. rewrite !andThen_fst. apply runEffects_out.
  - apply step_taxiInv, IH.
Qed.

(** X1. In every reachable state a tick of the poll changes nothing and
    sends one fetch for the current position when somebody is signed in
    and a position is known, and nothing at all otherwise. *)
Theorem taxi_tick_fetches_for_current_position (w : World) :
  reachable w ->
  step w TaxiTick =
    (w, match user w, currentLocation w with
        | Some _, Some loc => [Http (GetTaxisNearby (lat loc) (lng loc))]
        | _, _ => []
        end).
Proof.
  intros Hr. pose proof (reachable_taxiInv w Hr) as Hinv.
  cbn [step]. unfold tick. rewrite Hinv. unfold pollerActive.
  destruct (user w) as [u|], (currentLocation w) as [loc|] eqn:Hl;
    try reflexivity.
  unfold fetchNearbyTaxis, closureOf. cbn. rewrite Hl. reflexivity.
Qed.

Lemma taxi_tick_fetches_for_current_position_witness :
  step passengerWorld TaxiTick =
    (passengerWorld,
     [Http (GetTaxisNearby (lat riyadhAirport) (lng riyadhAirport))]).
Proof.
  apply (taxi_tick_fetches_for_current_position passengerWorld).
  apply reachable_run, reachable_startup.
Defined.

(** X2. In every reachable state a tick of the reporter changes nothing
    and sends one report of the current position when the condition of
    line 275 holds, and nothing at all otherwise. *)
Theorem reporter_tick_reports_current_position (w : World) :
  reachable w ->
  step w ReporterTick =
    (w, match currentLocation w with
        | Some loc =>
            if reporterActive (user w) (currentLocation w)
            then [Http (PostDriverLocation (lat loc) (lng loc))] else []
        | None => []
        end).
Proof.
  intros Hr. pose proof (reachable_reporterInv w Hr) as Hinv.
  cbn [step]. unfold tick. rewrite Hinv.
  destruct (user w) as [u|] eqn:Hu, (currentLocation w) as [loc|] eqn:Hl;
    try reflexivity.
  unfold reporterActive.
  destruct (String.eqb (user_type u) "driver") eqn:Ht,
           (is_activated u) eqn:Ha; cbn; try reflexivity.
  unfold handleLocationUpdate, closureOf. cbn. rewrite Hu, Hl, Ht, Ha.
  reflexivity.
Qed.

Lemma reporter_tick_reports_current_position_witness :
  step drivingWorld ReporterTick =
    (drivingWorld,
     [Http (PostDriverLocation (lat riyadhAirport) (lng riyadhAirport))]).
Proof.
  apply (reporter_tick_reports_current_position drivingWorld).
  apply reachable_run, reachable_startup.
Defined.

(** X3. Storing a profile while a position is known, or learning the
    position while signed in, sends the first fetch of the poll in the
    same step, and for an activated driver the first report, both for
    that position; with the profile or the position still missing nothing
    is sent. *)
Theorem activation_sends_first_fetch_and_report
    (w : World) (d : AuthData) (profile : UserProfile) (p : GeoPosition) :
  snd (step w (LoginAnswered (Resolved d))) =
    effectsOutput (Some (auth_user d)) (currentLocation w) /\
  snd (step w (PassengerRegisterAnswered (Resolved d))) =
    effectsOutput (Some (auth_user d)) (currentLocation w) /\
  snd (step w (DriverRegisterAnswered (Resolved d))) =
    effectsOutput (Some (auth_user d)) (currentLocation w) /\
  snd (step w (ProfileAnswered (Resolved profile))) =
    effectsOutput (Some profile) (currentLocation w) /\
  snd (step w (PositionFound p)) = effectsOutput (user w) (Some p).
Proof.
  repeat split; cbn [step]; rewrite andThen_snd;
    match goal with
    | |- context [runEffects ?x] =>
        destruct (runEffects_out x) as (_ & _ & _ & ->)
    end; reflexivity.
Qed.

(** ** Signed out *)

Lemma idle_of_invariants (w : World) :
  reachable w -> user w = None -> idle w.
Proof.
  intros Hr Hu.
  pose proof (reachable_taxiInv w Hr) as Ht.
  pose proof (reachable_reporterInv w Hr) as Hp.
  unfold taxiInv, reporterInv in *. rewrite Hu in *. cbn in *.
  repeat split; assumption.
Qed.

Lemma runEffects_signed_out (w : World) :
  user w = None -> snd (runEffects w) = [].
Proof.
  intros Hu. destruct (runEffects_out w) as (_ & _ & _ & ->).
  rewrite Hu. reflexivity.
Qed.

Lemma step_idle_sends_no_poll (w : World) (e : Event) :
  idle w -> storesProfile e = false ->
  existsb isPolling (snd (step w e)) = false.
Proof.
  intros (Hu & Ht & Hp) He.
  destruct e as [p| |[d|err]|r|r| |[d|err]| |[d|err]| |[d|err]|r|v|v|i|i| |r| | | |dt|id];
    try discriminate He; cbn [step].
  - rewrite andThen_snd, runEffects_signed_out; [reflexivity | exact Hu].
  - rewrite andThen_snd, runEffects_signed_out; [reflexivity | exact Hu].
  - reflexivity.
  - apply (never_at isPolling). walk.
  - apply (never_at isPolling). walk.
  - apply (never_at isPolling). walk.
  - reflexivity.
  - apply (never_at isPolling). walk.
  - reflexivity.
  - apply (never_at isPolling). walk.
  - reflexivity.
  - apply (never_at isPolling). walk.
  - unfold whenPassenger. rewrite Hu. reflexivity.
  - unfold whenPassenger. rewrite Hu. reflexivity.
  - unfold whenPassenger. rewrite Hu. reflexivity.
  - unfold whenPassenger. rewrite Hu. reflexivity.
  - unfold whenPassenger. rewrite Hu. reflexivity.
  - apply (never_at isPolling). walk.
  - unfold whenSignedIn. rewrite Hu. reflexivity.
  - unfold tick. rewrite Ht. reflexivity.
  - unfold tick. rewrite Hp. reflexivity.
  - reflexivity.
  - apply (never_at isPolling). walk.
Qed.

Lemma run_signed_out_sends_no_poll (w : World) (es : list Event) :
  reachable w -> user w = None ->
  forallb (fun e => negb (storesProfile e)) es = true ->
  existsb isPolling (snd (run w es)) = false.
Proof.
  revert w. induction es as [|e es IH]; intros w Hr Hu Hes; [reflexivity|].
  cbn in Hes. apply andb_prop in Hes as [He Hes].
  assert (He' : storesProfile e = false)
    by (destruct (storesProfile e); [discriminate | reflexivity]).
  cbn [run snd]. rewrite existsb_app.
  rewrite (step_idle_sends_no_poll w e (idle_of_invariants w Hr Hu) He').
  apply IH.
  - apply reachable_step, Hr.
  - apply (step_userAbsent e He' w Hu).
  - exact Hes.
Qed.

(** X4. While nobody is signed in, nothing polls: from any reachable
    state without a profile, over any events among which no answer stores
    a profile (ticks of both intervals included), no fetch of nearby
    taxis and no location report is sent.  So after a logout both loops
    are silent until the next login. *)
Theorem signed_out_sends_no_poll (w : World) (es : list Event) :
  reachable w ->
  forallb (fun e => negb (storesProfile e)) es = true ->
  existsb isPolling (snd (run (fst (step w ClickLogout)) es)) = false.
Proof.
  intros Hr Hes. apply run_signed_out_sends_no_poll.
  - apply reachable_step, Hr.
  - cbn [step]. unfold whenSignedIn. destruct (user w) eqn:Hu.
    + rewrite andThen_fst. destruct (runEffects_out (fst (handleLogout w)))
        as (-> & _). reflexivity.
    + exact Hu.
  - exact Hes.
Qed.

Lemma signed_out_sends_no_poll_witness :
  existsb isPolling (snd (step drivingWorld TaxiTick)) = true /\
  existsb isPolling
    (snd (run (fst (step drivingWorld ClickLogout))
            [TaxiTick; ReporterTick; PositionFound riyadhAirport;
             NearbyAnswered (Resolved []); TaxiTick])) = false.
Proof.
  split; [reflexivity|].
  apply (signed_out_sends_no_poll drivingWorld).
  - apply reachable_run, reachable_startup.
  - reflexivity.
Defined.

(** ** The profile within a session *)





(** ** The credential *)

Lemma storeSession_sync (d : AuthData) : preserves credentialInSync (storeSession d).
Proof.
  intros w _. unfold credentialInSync. cbn.
  rewrite !lookup_insert_eq. split.
  - intros h [= <-]. eauto.
  - intros t [= <-] _. reflexivity.
Qed.

Lemma handleLogout_sync : preserves credentialInSync handleLogout.
Proof.
  intros w _. unfold credentialInSync. cbn.
  rewrite !lookup_removed. split; intros ? [=].
Qed.

Lemma restore_rejected_sync (err : AxiosError) :
  preserves credentialInSync (fetchUserProfile_then (Rejected err)).
Proof.
  intros w _. unfold credentialInSync. cbn.
  rewrite !lookup_removed. split; intros ? [=].
Qed.

Lemma startup_restore (g : bool) (storage : gmap string string) :
  List.filter isProfileFetch (snd (startup g storage)) =
    match storedToken storage with Some _ => [Http GetMe] | None => [] end /\
  headers (fst (startup g storage)) !! "Authorization" =
    (fun t => "Bearer " ++ t) <$> storedToken storage /\
  localStorage (fst (startup g storage)) = storage /\
  user (fst (startup g storage)) = None.
Proof.
  unfold startup, mount, effect_restore, initialWorld, andThen, storedToken.
  destruct g; cbn; destruct (storage !! "token") as [t|]; cbn;
    try (destruct (String.eqb t ""); cbn);
    rewrite ?lookup_insert_eq, ?lookup_empty; repeat split.
Qed.

Lemma startup_sync (g : bool) (storage : gmap string string) :
  credentialInSync (fst (startup g storage)).
Proof.
  destruct (startup_restore g storage) as (_ & Hh & Hl & _).
  unfold credentialInSync. rewrite Hh, Hl. unfold storedToken.
  destruct (storage !! "token") as [t|]; cbn.
  - destruct (String.eqb_spec t "") as [->|Hne]; cbn; split.
    + intros ? [=].
    + intros t' [= <-] Hn. congruence.
    + intros h [= <-]. eauto.
    + intros t' [= <-] _. reflexivity.
  - split; intros ? [=].
Qed.

Lemma step_sync (e : Event) : preserves credentialInSync (fun w => step w e).
Proof.
  destruct e as [p| |[d|err]|r|r| |[d|err]| |[d|err]| |[d|err]|r|v|v|i|i| |r| | | |dt|id];
    unfold step; try solve [walk]; intros w Hw; cbv beta.
  - (* the restore is rejected *)
    exact (restore_rejected_sync err w Hw).
  - (* a login succeeds *)
    apply preserves_at; [|exact Hw].
    unfold handleLogin_then.
    apply preserves_andThen;
      [apply preserves_andThen; [apply storeSession_sync | walk] | walk].
  - apply preserves_at; [|exact Hw].
    unfold handlePassengerRegister_then, handleRegister_then.
    apply preserves_andThen;
      [apply preserves_andThen; [apply storeSession_sync | walk] | walk].
  - apply preserves_at; [|exact Hw].
    unfold handleDriverRegister_then, handleRegister_then.
    apply preserves_andThen;
      [apply preserves_andThen; [apply storeSession_sync | walk] | walk].
  - (* logout *)
    unfold whenSignedIn. destruct (user w); [|exact Hw].
    apply preserves_at; [|exact Hw].
    apply preserves_andThen; [apply handleLogout_sync | walk].
Qed.

(** X6. In every reachable state the Authorization header, when there is
    one, is the bearer of the token in the storage, and a non-empty token
    in the storage is on the header: login, registration, logout and the
    failed restore change the two together. *)
Theorem credential_and_header_in_sync (w : World) :
  reachable w ->
  (forall h, headers w !! "Authorization" = Some h ->
     exists t, localStorage w !! "token" = Some t /\ h = "Bearer " ++ t) /\
  (forall t, localStorage w !! "token" = Some t -> t <> "" ->
     headers w !! "Authorization" = Some ("Bearer " ++ t)).
Proof.
  induction 1 as [g s | w e Hr IH].
  - apply startup_sync.
  - apply (step_sync e w IH).
Qed.

Lemma credential_and_header_in_sync_witness :
  localStorage drivingWorld !! "token" = Some "t1" /\
  headers drivingWorld !! "Authorization" = Some "Bearer t1".
Proof.
  split; [reflexivity|].
  destruct (credential_and_header_in_sync drivingWorld) as [_ H].
  - apply reachable_run, reachable_startup.
  - apply (H "t1"); [reflexivity | discriminate].
Defined.

(** ** Starting again on the same storage *)



(** X7. Mounting tries to restore a session exactly when the storage
    holds a token that is not the empty string: then the header becomes
    the bearer of that token and one request for the profile is sent;
    otherwise no header is set and no request is sent.  Either way the
    storage is left as it was and nobody is signed in yet. *)
Theorem restore_attempted_iff_token_stored
    (g : bool) (storage : gmap string string) :
  List.filter isProfileFetch (snd (startup g storage)) =
    match storedToken storage with Some _ => [Http GetMe] | None => [] end /\
  headers (fst (startup g storage)) !! "Authorization" =
    (fun t => "Bearer " ++ t) <$> storedToken storage /\
  localStorage (fst (startup g storage)) = storage /\
  user (fst (startup g storage)) = None /\
  storedToken (<["token" := ""]> storage) = None /\
  storedToken (delete "token" storage) = None.
Proof.
  destruct (startup_restore g storage) as (H1 & H2 & H3 & H4).
  repeat split; try assumption.
  - unfold storedToken. rewrite lookup_insert_eq. reflexivity.
  - unfold storedToken. rewrite lookup_removed. reflexivity.
Qed.

Lemma runEffects_storage (m : gmap string string) :
  preserves (storageIs m) runEffects.
Proof. walk. Qed.

Lemma session_storage (w : World) (d : AuthData) :
  localStorage (fst (step w (LoginAnswered (Resolved d)))) =
    <["token" := access_token d]> (localStorage w) /\
  localStorage (fst (step w (PassengerRegisterAnswered (Resolved d)))) =
    <["token" := access_token d]> (localStorage w) /\
  localStorage (fst (step w (DriverRegisterAnswered (Resolved d)))) =
    <["token" := access_token d]> (localStorage w).
Proof.
  repeat split; cbn [step]; rewrite andThen_fst;
    apply (runEffects_storage (<["token" := access_token d]> (localStorage w)));
    reflexivity.
Qed.

(** X8. A session survives a reload and a logout does not.  After a
    login or a registration that delivered a non-empty token, mounting
    again on the storage it left sends the request for the profile with
    the bearer of that token on the header; after a logout, or after a
    rejected restore, mounting again on the storage sets no header and
    sends no request. *)
Theorem session_survives_reload_until_logout
    (w : World) (d : AuthData) (err : AxiosError) (g : bool) (e : Event) :
  access_token d <> "" ->
  In e [LoginAnswered (Resolved d); PassengerRegisterAnswered (Resolved d);
        DriverRegisterAnswered (Resolved d)] ->
  let afterLogin := fst (step w e) in
  let afterLogout := fst (handleLogout w) in
  let afterRejection := fst (step w (ProfileAnswered (Rejected err))) in
  (List.filter isProfileFetch (snd (startup g (localStorage afterLogin))) =
     [Http GetMe] /\
   headers (fst (startup g (localStorage afterLogin))) !! "Authorization" =
     Some ("Bearer " ++ access_token d)) /\
  (List.filter isProfileFetch (snd (startup g (localStorage afterLogout))) = [] /\
   headers (fst (startup g (localStorage afterLogout))) !! "Authorization" =
     None) /\
  (List.filter isProfileFetch
     (snd (startup g (localStorage afterRejection))) = [] /\
   headers (fst (startup g (localStorage afterRejection))) !! "Authorization" =
     None).
Proof.
  intros Ht He afterLogin afterLogout afterRejection.
  assert (H1 : storedToken (localStorage afterLogin) = Some (access_token d)).
  { subst afterLogin. unfold storedToken.
    destruct (session_storage w d) as (Ha & Hb & Hc).
    destruct He as [<-|[<-|[<-|[]]]]; rewrite ?Ha, ?Hb, ?Hc, lookup_insert_eq;
      destruct (String.eqb_spec (access_token d) ""); congruence. }
  assert (H2 : storedToken (localStorage afterLogout) = None).
  { subst afterLogout. unfold storedToken. cbn. rewrite lookup_removed.
    reflexivity. }
  assert (H3 : storedToken (localStorage afterRejection) = None).
  { subst afterRejection. unfold storedToken. cbn. rewrite lookup_removed.
    reflexivity. }
  repeat split.
  - destruct (startup_restore g (localStorage afterLogin)) as (-> & _).
    rewrite H1. reflexivity.
  - destruct (startup_restore g (localStorage afterLogin)) as (_ & -> & _).
    rewrite H1. reflexivity.
  - destruct (startup_restore g (localStorage afterLogout)) as (-> & _).
    rewrite H2. reflexivity.
  - destruct (startup_restore g (localStorage afterLogout)) as (_ & -> & _).
    rewrite H2. reflexivity.
  - destruct (startup_restore g (localStorage afterRejection)) as (-> & _).
    rewrite H3. reflexivity.
  - destruct (startup_restore g (localStorage afterRejection)) as (_ & -> & _).
    rewrite H3. reflexivity.
Qed.

Lemma session_survives_reload_until_logout_witness :
  let d := {| access_token := "t9"; auth_user := passengerMona;
              auth_message := "" |} in
  let w := fst (step (fst (startup true ∅)) (LoginAnswered (Resolved d))) in
  headers (fst (startup true (localStorage w))) !! "Authorization" =
    Some "Bearer t9" /\
  headers (fst (startup true (localStorage (fst (handleLogout w)))))
    !! "Authorization" = None.
Proof.
  intros d w.
  destruct (session_survives_reload_until_logout
              (fst (startup true ∅)) d unauthorized true
              (LoginAnswered (Resolved d)))
    as ((_ & H1) & _ & _); [discriminate | left; reflexivity |].
  split; [exact H1|].
  destruct (session_survives_reload_until_logout w d unauthorized true
              (LoginAnswered (Resolved d)))
    as (_ & (_ & H2) & _); [discriminate | left; reflexivity |].
  exact H2.
Defined.

(** ** Who posts a notification *)

Lemma showAlert_posts (ty msg : string) (w : World) :
  postedIs ty (timeouts w ++ [(nextTimerId w, (now w + 5000)%N)])%list
    (nextTimerId w + 1)%N (fst (showAlert ty msg w)).
Proof. repeat split. Qed.

Lemma storeSession_timers (d : AuthData) (w : World) :
  timersAre (timeouts w) (nextTimerId w) (now w) (fst (storeSession d w)).
Proof. apply preserves_at; [walk | repeat split]. Qed.

Lemma session_then_posts (d : AuthData) (ty msg : string) (w : World) :
  postedIs ty (timeouts w ++ [(nextTimerId w, (now w + 5000)%N)])%list
    (nextTimerId w + 1)%N (fst ((storeSession d ;; showAlert ty msg) w)).
Proof.
  rewrite andThen_fst.
  destruct (storeSession_timers d w) as (Hts & Hn & Ht).
  rewrite <- Hts, <- Hn, <- Ht. apply showAlert_posts.
Qed.

Lemma runEffects_postedIs (ty : string) (ts : list (N * N)) (n : N) :
  preserves (postedIs ty ts n) runEffects.
Proof. walk. Qed.

Lemma step_alertFrame (e : Event) (a : Alert) (ts : list (N * N)) (n : N) :
  postsAlert e = false -> (forall id, e <> TimeoutFires id) ->
  preserves (alertFrame a ts n) (fun w => step w e).
Proof.
  intros He Hid.
  destruct e as [p| |[d|err]|r|r| |r| |r| |r|[[]|err]|v|v|i|i| |r| | | |dt|id];
    try discriminate He; unfold step; try solve [walk].
  - cbn in He. unfold handleLocationUpdate_then. rewrite He. walk.
  - exfalso. eapply Hid. reflexivity.
Qed.

Lemma step_postedIs (e : Event) (w : World) :
  postsAlert e = true ->
  postedIs (if succeeded e then "success" else "error")
    (timeouts w ++ [(nextTimerId w, (now w + 5000)%N)])%list
    (nextTimerId w + 1)%N (fst (step w e)).
Proof.
  intros He.
  destruct e as [p| |[d|err]|r|r| |[d|err]| |[d|err]| |[d|err]|[[]|err]|v|v|i|i| |[[]|err]| | | |dt|id];
    try discriminate He; cbn [step succeeded];
    unfold handleLogin_then, handlePassengerRegister_then,
      handleDriverRegister_then, handleRegister_then, handleRideRequest_then,
      handleLocationUpdate_then;
    rewrite ?andThen_fst;
    repeat match goal with
           | |- postedIs ?ty ?ts ?n (fst (runEffects ?x)) =>
               apply (runEffects_postedIs ty ts n)
           | |- postedIs ?ty ?ts ?n (fst (modify ?f ?x)) =>
               apply (preserves_at (postedIs ty ts n) (modify f)); [walk|]
           end.
  - rewrite <- andThen_fst. apply session_then_posts.
  - apply showAlert_posts.
  - rewrite <- andThen_fst. apply session_then_posts.
  - apply showAlert_posts.
  - rewrite <- andThen_fst. apply session_then_posts.
  - apply showAlert_posts.
  - cbn in He. rewrite He. apply showAlert_posts.
  - apply showAlert_posts.
  - apply showAlert_posts.
Qed.

(** X9. Only the answers to a login, a registration and a ride request,
    and a location report rejected with status 403, post a notification:
    such an event leaves a displayed alert, of type success when the
    request succeeded and error otherwise, and starts exactly one timer
    due in 5 seconds.  Every other event that is not a timer leaves the
    alert and the pending timers as they were: a failed restore, a failed
    fetch of taxis or of the customer service info, and a location report
    rejected with another status are never shown. *)
Theorem notification_only_from_answers (w : World) (e : Event) :
  (forall id, e <> TimeoutFires id) ->
  if postsAlert e
  then show (alert (fst (step w e))) = true /\
       type (alert (fst (step w e))) =
         (if succeeded e then "success" else "error") /\
       timeouts (fst (step w e)) =
         (timeouts w ++ [(nextTimerId w, (now w + 5000)%N)])%list /\
       nextTimerId (fst (step w e)) = (nextTimerId w + 1)%N
  else alert (fst (step w e)) = alert w /\
       timeouts (fst (step w e)) = timeouts w /\
       nextTimerId (fst (step w e)) = nextTimerId w.
Proof.
  intros Hid. destruct (postsAlert e) eqn:He.
  - apply (step_postedIs e w He).
  - apply (step_alertFrame e (alert w) (timeouts w) (nextTimerId w) He Hid w).
    repeat split.
Qed.

Lemma notification_only_from_answers_witness :
  alert (fst (step drivingWorld (LocationAnswered (Rejected networkError)))) =
    alert drivingWorld /\
  type (alert (fst (step drivingWorld (LocationAnswered (Rejected forbidden)))))
    = "error".
Proof.
  split.
  - apply (notification_only_from_answers drivingWorld
             (LocationAnswered (Rejected networkError))).
    discriminate.
  - apply (notification_only_from_answers drivingWorld
             (LocationAnswered (Rejected forbidden))).
    discriminate.
Defined.

(** ** What the alert holds *)

Lemma showAlert_alertInv (ty msg : string) :
  ty = "success" \/ ty = "error" -> preserves alertInv (showAlert ty msg).
Proof.
  intros Hty w _. right. cbn. repeat split; [exact Hty|].
  exists (nextTimerId w, (now w + 5000)%N). split.
  - apply in_or_app. right. left. reflexivity.
  - cbn. lia.
Qed.

Lemma elapse_alertInv (dt : N) :
  preserves alertInv (modify (fun w => set_now (now w + dt)%N w)).
Proof.
  intros w [Hh | (Hs & Hty & t & Hin & Hle)]; [left; exact Hh|].
  right. cbn. repeat split; try assumption.
  exists t. split; [exact Hin | lia].
Qed.

Lemma fireTimeout_alertInv (id : N) : preserves alertInv (fireTimeout id).
Proof.
  intros w Hw. unfold fireTimeout. destruct (timerDue id w); [|exact Hw].
  left. reflexivity.
Qed.

Lemma step_alertInv (e : Event) : preserves alertInv (fun w => step w e).
Proof.
  destruct e as [p| |[d|err]|r|r| |[d|err]| |[d|err]| |[d|err]|[[]|err]|v|v|i|i| |[[]|err]| | | |dt|id];
    unfold step; try solve [walk]; intros w Hw; cbv beta;
    (apply (preserves_at alertInv); [|exact Hw]);
    unfold handleLogin_then, handlePassengerRegister_then,
      handleDriverRegister_then, handleRegister_then, handleRideRequest_then,
      handleLocationUpdate_then;
    repeat match goal with
           | |- preserves alertInv (showAlert _ _) =>
               apply showAlert_alertInv; auto
           | |- preserves alertInv (andThen _ _) => apply preserves_andThen
           | |- preserves alertInv (if ?b then _ else _) => destruct b
           end;
    try solve [walk].
  - apply elapse_alertInv.
  - apply fireTimeout_alertInv.
Qed.

Lemma startup_alertInv (g : bool) (storage : gmap string string) :
  alertInv (fst (startup g storage)).
Proof. unfold startup. apply preserves_at; [walk | left; reflexivity]. Qed.

(** X10. In every reachable state the alert is either the hidden one,
    with empty type and message, or a displayed one of type success or
    error for which a dismissal timer is pending and due at most 5
    seconds from now: a notification that is on the screen never stays
    there without a timer to hide it. *)
Theorem displayed_alert_has_pending_dismissal (w : World) :
  reachable w ->
  (show (alert w) = false -> alert w = alertHidden) /\
  (show (alert w) = true ->
   (type (alert w) = "success" \/ type (alert w) = "error") /\
   exists id due, In (id, due) (timeouts w) /\ (due <= now w + 5000)%N).
Proof.
  intros Hr.
  assert (Hinv : alertInv w).
  { induction Hr as [g s | w e Hr IH].
    - apply startup_alertInv.
    - apply (step_alertInv e w IH). }
  destruct Hinv as [Hh | (Hs & Hty & [id due] & Hin & Hle)].
  - split; [intros _; exact Hh | rewrite Hh; discriminate].
  - split; [rewrite Hs; discriminate|].
    intros _. split; [exact Hty|]. exists id, due. split; assumption.
Qed.

Lemma displayed_alert_has_pending_dismissal_witness :
  type (alert drivingWorld) = "success" \/ type (alert drivingWorld) = "error".
Proof.
  destruct (displayed_alert_has_pending_dismissal drivingWorld) as [_ H].
  - apply reachable_run, reachable_startup.
  - apply H. reflexivity.
Defined.

(** ** A refused registration *)

Lemma registrationMessage_nonempty (error : AxiosError) :
  registrationMessage error <> "".
Proof.
  unfold registrationMessage. destruct (detail error) as [d|]; [|discriminate].
  destruct (String.eqb_spec d ""); [discriminate | assumption].
Qed.

Lemma registrationMessage_detail (error : AxiosError) (d : string) :
  detail error = Some d -> d <> "" -> registrationMessage error = d.
Proof.
  intros Hd Hne. unfold registrationMessage. rewrite Hd.
  destruct (String.eqb_spec d ""); congruence.
Qed.

Lemma handleRegister_rejected_session (error : AxiosError)
    (u : option UserProfile) (m h : gmap string string) :
  preserves (sessionIs u m h) (handleRegister_then (Rejected error)).
Proof. walk. Qed.

(** X11. A refused registration, of a passenger or of a driver, shows an
    error whose text is the detail of the server's answer when there is a
    non-empty one and the fixed fallback otherwise, so the text is never
    empty; it clears the loading flag, sends nothing, and leaves the
    profile, the stored token and the header as they were. *)
Theorem refused_registration_shows_detail_or_fallback
    (w : World) (error : AxiosError) (e : Event) :
  In e [PassengerRegisterAnswered (Rejected error);
        DriverRegisterAnswered (Rejected error)] ->
  alert (fst (step w e)) =
    {| show := true; type := "error";
       message := registrationMessage error |} /\
  registrationMessage error <> "" /\
  (forall d, detail error = Some d -> d <> "" ->
     registrationMessage error = d) /\
  (detail error = None \/ detail error = Some "" ->
     registrationMessage error = "خطأ في التسجيل.") /\
  isLoading (fst (step w e)) = false /\
  snd (step w e) = [] /\
  user (fst (step w e)) = user w /\
  localStorage (fst (step w e)) = localStorage w /\
  headers (fst (step w e)) = headers w.
Proof.
  intros He.
  assert (Hs : step w e = handleRegister_then (Rejected error) w).
  { destruct He as [<-|[<-|[]]]; reflexivity. }
  rewrite Hs.
  destruct (handleRegister_rejected_session error
              (user w) (localStorage w) (headers w) w) as (Hu & Hm & Hh);
    [repeat split|].
  repeat split; try assumption.
  - apply registrationMessage_nonempty.
  - apply registrationMessage_detail.
  - intros [Hd|Hd]; unfold registrationMessage; rewrite Hd; reflexivity.
Qed.

Lemma refused_registration_shows_detail_or_fallback_witness :
  message (alert (fst (step (fst (startup true ∅))
     (DriverRegisterAnswered
        (Rejected {| status := Some 400%Z;
                     detail := Some "كود التفعيل غير صحيح" |}))))) =
  "كود التفعيل غير صحيح".
Proof.
  destruct (refused_registration_shows_detail_or_fallback
              (fst (startup true ∅))
              {| status := Some 400%Z; detail := Some "كود التفعيل غير صحيح" |}
              (DriverRegisterAnswered
                 (Rejected {| status := Some 400%Z;
                              detail := Some "كود التفعيل غير صحيح" |})))
    as (-> & _); [right; left; reflexivity | reflexivity].
Defined.

(** ** The call to customer service *)

Lemma step_customerServiceIs (e : Event) (i : CustomerServiceInfo) :
  isCustomerServiceData e = false ->
  preserves (customerServiceIs i) (fun w => step w e).
Proof.
  destruct e as [| | |[|]| | | | | | | | | | | | | | | | | | |];
    intros He; try discriminate He; unfold step; walk.
Qed.

Lemma run_customerServiceIs (w : World) (es : list Event)
    (i : CustomerServiceInfo) :
  forallb (fun e => negb (isCustomerServiceData e)) es = true ->
  customerServiceIs i w -> customerServiceIs i (fst (run w es)).
Proof.
  revert w. induction es as [|e es IH]; intros w Hes Hw; [exact Hw|].
  cbn in Hes. apply andb_prop in Hes as [He Hes].
  cbn. apply IH; [exact Hes|].
  apply (step_customerServiceIs e i); [|exact Hw].
  destruct (isCustomerServiceData e); [discriminate | reflexivity].
Qed.

(** X12. The button that calls customer service opens nothing until an
    answer has delivered the info, whatever happens meanwhile; once an
    answer has delivered a non-empty phone number it opens the tel: link
    of that number, and keeps doing so until another answer delivers
    data; an answer with an empty number leaves the button without
    effect. *)
Theorem call_button_follows_delivered_phone
    (g : bool) (storage : gmap string string) (es es' : list Event)
    (info : CustomerServiceInfo) :
  forallb (fun e => negb (isCustomerServiceData e)) es = true ->
  forallb (fun e => negb (isCustomerServiceData e)) es' = true ->
  let w := fst (run (fst (startup g storage)) es) in
  let w' := fst (run (fst (step w (CustomerServiceAnswered (Resolved info))))
                   es') in
  callCustomerService w = None /\
  callCustomerService w' =
    if String.eqb (cs_phone info) "" then None
    else Some ("tel:" ++ cs_phone info).
Proof.
  intros Hes Hes'. cbv zeta. split.
  - unfold callCustomerService.
    rewrite (run_customerServiceUnset _ es Hes
               (startup_customerServiceUnset g storage)).
    reflexivity.
  - unfold callCustomerService.
    rewrite !(run_customerServiceIs _ es' info Hes'); reflexivity.
Qed.

Lemma call_button_follows_delivered_phone_witness :
  callCustomerService
    (fst (run (fst (step (fst (run (fst (startup true ∅))
                                 [PositionFound riyadhAirport]))
                      (CustomerServiceAnswered
                         (Resolved {| cs_phone := "920000000";
                                      cs_message := "" |}))))
            [SubmitDriverRegister])) = Some "tel:920000000".
Proof.
  apply (call_button_follows_delivered_phone true ∅
           [PositionFound riyadhAirport] [SubmitDriverRegister]
           {| cs_phone := "920000000"; cs_message := "" |});
    reflexivity.
Defined.

(** ** Asking for a ride again *)

Lemma submitRide_blocked (w : World) :
  destination_address (rideRequest w) = "" -> step w SubmitRide = (w, []).
Proof.
  intros Hd. cbn [step]. unfold whenPassenger, rideForm_submit.
  rewrite Hd. destruct (user w) as [u|]; [|reflexivity].
  destruct (String.eqb (user_type u) "passenger"); reflexivity.
Qed.

Lemma submitRide_passenger (w : World) (u : UserProfile) :
  user w = Some u -> user_type u = "passenger" ->
  destination_address (rideRequest w) <> "" ->
  step w SubmitRide = handleRideRequest w.
Proof.
  intros Hu Hty Hd. cbn [step]. unfold whenPassenger, rideForm_submit.
  rewrite Hu, Hty, String.eqb_refl.
  destruct (String.eqb_spec (destination_address (rideRequest w)) "");
    [contradiction | reflexivity].
Qed.

(** X13. For a passenger whose form has a destination: without a known
    position the submit does nothing, not even set the loading flag; with
    one it sends the request.  A rejected request keeps the form, so
    submitting again sends the same request; an accepted request resets
    the form, so submitting again is blocked until a new destination is
    typed.  Both answers clear the loading flag. *)
Theorem ride_form_kept_on_failure_reset_on_success
    (w : World) (u : UserProfile) (error : AxiosError) :
  user w = Some u -> user_type u = "passenger" ->
  destination_address (rideRequest w) <> "" ->
  step w SubmitRide =
    match currentLocation w with
    | None => (w, [])
    | Some loc =>
        (setIsLoading true w,
         [Http (PostRidesRequest (ridePayload loc (rideRequest w)))])
    end /\
  let sent := fst (step w SubmitRide) in
  let failed := fst (step sent (RideAnswered (Rejected error))) in
  let accepted := fst (step sent (RideAnswered (Resolved tt))) in
  rideRequest failed = rideRequest w /\
  isLoading failed = false /\
  snd (step failed SubmitRide) = snd (step w SubmitRide) /\
  rideRequest accepted = emptyRideRequest /\
  isLoading accepted = false /\
  step accepted SubmitRide = (accepted, []).
Proof.
  intros Hu Hty Hd.
  assert (Hs : step w SubmitRide =
    match currentLocation w with
    | None => (w, [])
    | Some loc =>
        (setIsLoading true w,
         [Http (PostRidesRequest (ridePayload loc (rideRequest w)))])
    end).
  { rewrite (submitRide_passenger w u Hu Hty Hd). unfold handleRideRequest.
    destruct (currentLocation w); reflexivity. }
  split; [exact Hs|]. cbv zeta.
  assert (Hsent : user (fst (step w SubmitRide)) = user w /\
                  currentLocation (fst (step w SubmitRide)) = currentLocation w /\
                  rideRequest (fst (step w SubmitRide)) = rideRequest w).
  { rewrite Hs. destruct (currentLocation w) eqn:Hl; cbn; auto. }
  destruct Hsent as (Hsu & Hsl & Hsr).
  remember (fst (step w SubmitRide)) as sent eqn:Hsent.
  set (failed := fst (step sent (RideAnswered (Rejected error)))).
  assert (Hf : user failed = user w /\
               currentLocation failed = currentLocation w /\
               rideRequest failed = rideRequest w)
    by (subst failed; cbn; auto).
  destruct Hf as (Hfu & Hfl & Hfr).
  assert (Hagain : step failed SubmitRide = handleRideRequest failed).
  { apply (submitRide_passenger failed u);
      [rewrite Hfu; exact Hu | exact Hty | rewrite Hfr; exact Hd]. }
  repeat split.
  - exact Hfr.
  - rewrite Hagain, (submitRide_passenger w u Hu Hty Hd).
    unfold handleRideRequest. rewrite Hfl, Hfr.
    destruct (currentLocation w); reflexivity.
  - apply submitRide_blocked. reflexivity.
Qed.

Lemma ride_form_kept_on_failure_reset_on_success_witness :
  let w := fst (step passengerWorld (TypeDestination "المطار")) in
  let sent := fst (step w SubmitRide) in
  snd (step (fst (step sent (RideAnswered (Rejected networkError)))) SubmitRide)
    = snd (step w SubmitRide) /\
  snd (step (fst (step sent (RideAnswered (Resolved tt)))) SubmitRide) = [].
Proof.
  intros w sent.
  destruct (ride_form_kept_on_failure_reset_on_success
              w passengerMona networkError)
    as (_ & _ & _ & H1 & _ & _ & H2); try reflexivity; [discriminate|].
  split; [exact H1|]. fold sent in H2. rewrite H2. reflexivity.
Defined.


(** ** The position, once known *)

Lemma step_located (e : Event) : preserves located (fun w => step w e).
Proof.
  destruct e; unfold step; walk; intros ? _; discriminate.
Qed.

Lemma step_locationIs (e : Event) (l : option GeoPosition) :
  isPositionEvent e = false -> preserves (locationIs l) (fun w => step w e).
Proof.
  destruct e; intros He; try discriminate He; unfold step; walk.
Qed.

(** X14. A position, once known, is never lost: no event, logout
    included, sets it back to null, so the guards on a missing position
    can only stop a handler before the first answer of the device.  And
    only the two callbacks of the position request change it: over
    events that are neither, the position stays the one it was. *)
Theorem position_once_known_is_kept (w : World) (es : list Event) :
  (currentLocation w <> None -> currentLocation (fst (run w es)) <> None) /\
  (forallb (fun e => negb (isPositionEvent e)) es = true ->
   currentLocation (fst (run w es)) = currentLocation w).
Proof.
  split.
  - revert w. induction es as [|e es IH]; intros w Hw; [exact Hw|].
    cbn [run fst]. apply IH. apply (step_located e w Hw).
  - revert w. induction es as [|e es IH]; intros w Hes; [reflexivity|].
    cbn in Hes. apply andb_prop in Hes as [He Hes].
    cbn [run fst]. rewrite (IH _ Hes).
    apply (step_locationIs e (currentLocation w)); [|reflexivity].
    destruct (isPositionEvent e); [discriminate | reflexivity].
Qed.

Lemma position_once_known_is_kept_witness :
  currentLocation (fst (run drivingWorld [ClickLogout; TaxiTick])) =
    Some riyadhAirport.
Proof.
  destruct (position_once_known_is_kept drivingWorld [ClickLogout; TaxiTick])
    as [_ H].
  rewrite H; reflexivity.
Defined.

(** ** The driver registration form *)

Lemma matchAtoms_length (p : list Atom) (s : string) :
  matchAtoms p s = true -> String.length s = length p.
Proof.
  revert s. induction p as [|a p IH]; intros [|c s]; cbn; try discriminate.
  - reflexivity.
  - intros H. apply andb_prop in H as [_ H]. f_equal. apply IH, H.
Qed.

Lemma matchAtoms_digits (p : list Atom) (s : string) :
  (forall a c, In a p -> atomMatches a c = true -> isDigit c = true) ->
  matchAtoms p s = true ->
  forallb isDigit (list_ascii_of_string s) = true.
Proof.
  revert s. induction p as [|a p IH]; intros [|c s] Hp; cbn; try discriminate.
  - reflexivity.
  - intros H. apply andb_prop in H as [Hc H].
    rewrite (Hp a c (or_introl eq_refl) Hc). cbn.
    apply IH; [|exact H]. intros a' c' Hin. apply Hp. right. exact Hin.
Qed.

Lemma matchAtoms_prefix (a b : ascii) (p : list Atom) (s : string) :
  matchAtoms (Lit a :: Lit b :: p) s = true ->
  exists rest, s = String a (String b rest).
Proof.
  destruct s as [|c [|c' s]]; cbn; try discriminate.
  - rewrite andb_false_r. discriminate.
  - intros H. apply andb_prop in H as [Ha H]. apply andb_prop in H as [Hb _].
    apply Ascii.eqb_eq in Ha, Hb. subst. exists s. reflexivity.
Qed.

Lemma pattern_atoms_are_digits (a : Atom) (c : ascii) :
  In a phonePattern -> atomMatches a c = true -> isDigit c = true.
Proof.
  intros Hin Hm.
  assert (Ha : a = Lit "0" \/ a = Lit "5" \/ a = Digit).
  { cbn in Hin. intuition (subst; auto). }
  destruct Ha as [->|[->| ->]]; unfold atomMatches in Hm;
    try (apply Ascii.eqb_eq in Hm; subst; reflexivity).
  exact Hm.
Qed.

Lemma driverFormValid_patterns (f : DriverForm.t) :
  driverFormValid f = true ->
  matchAtoms phonePattern (DriverForm.phone f) = true /\
  matchAtoms activationCodePattern (DriverForm.activation_code f) = true.
Proof.
  unfold driverFormValid. intros H.
  repeat (apply andb_prop in H as [H ?]). split; assumption.
Qed.

(** X15. A driver form that the browser lets through has a phone of
    exactly ten digits and an activation code of exactly seven digits,
    both starting with 05, so neither [maxLength] ever cuts a value the
    pattern accepts; and a form the browser does not let through sends
    nothing and changes nothing. *)
Theorem driver_form_lets_through_wellformed_numbers
    (f : DriverForm.t) (w : World) :
  (driverFormValid f = true ->
   String.length (DriverForm.phone f) = phoneMaxLength /\
   String.length (DriverForm.activation_code f) = activationCodeMaxLength /\
   (exists rest, DriverForm.phone f = String "0" (String "5" rest)) /\
   (exists rest, DriverForm.activation_code f = String "0" (String "5" rest)) /\
   forallb isDigit (list_ascii_of_string (DriverForm.phone f)) = true /\
   forallb isDigit (list_ascii_of_string (DriverForm.activation_code f)) = true /\
   driverForm_submit f w = whenAnonymous handleDriverRegister w) /\
  (driverFormValid f = false -> driverForm_submit f w = (w, [])).
Proof.
  split.
  - intros Hv. destruct (driverFormValid_patterns f Hv) as [Hp Hc].
    repeat split.
    + apply (matchAtoms_length _ _ Hp).
    + apply (matchAtoms_length _ _ Hc).
    + apply (matchAtoms_prefix _ _ _ _ Hp).
    + apply (matchAtoms_prefix _ _ _ _ Hc).
    + apply (matchAtoms_digits _ _ pattern_atoms_are_digits Hp).
    + apply (matchAtoms_digits activationCodePattern); [|exact Hc].
      intros a c Hin. apply pattern_atoms_are_digits.
      cbn in Hin. cbn. intuition.
    + unfold driverForm_submit. rewrite Hv. reflexivity.
  - intros Hv. unfold driverForm_submit. rewrite Hv. reflexivity.
Qed.

Lemma driver_form_lets_through_wellformed_numbers_witness :
  String.length (DriverForm.phone sampleDriverForm) = 10%nat /\
  snd (driverForm_submit sampleDriverForm (fst (startup true ∅))) =
    [Http PostRegisterDriver].
Proof.
  destruct (driver_form_lets_through_wellformed_numbers
              sampleDriverForm (fst (startup true ∅)))
    as [H _].
  destruct H as (Hl & _ & _ & _ & _ & _ & Hs); [reflexivity|].
  split; [exact Hl|]. rewrite Hs. reflexivity.
Defined.

(** ** The earlier variant of the reporter *)


